(** * mapa_pa_usinas: the data-refresh path of [app.py]

    A shallow embedding of the loaders, the remote fetcher, the coordinate
    normalizer, the regional filter and the map layers of [src/app.py], with
    the properties the specification states about them and further
    properties of the code.

    Python values are modelled as follows.
    - A pandas cell is a [value]: a float64 number (NaN included), a string,
      or the null object.  Integer cells are read as the float of the same
      value.
    - A [DataFrame] is its column labels and its rows, a row mapping labels
      to cells (a label without a cell reads as null).  Index labels and
      column dtypes are not modelled; a column is of object dtype unless it
      holds numbers and no string.
    - Code that can raise returns an [outcome]; code with effects runs in
      the state monad [St], whose state survives a raised exception.
    - The loaders run in a [World]: the files, what the remote endpoint
      answers to each request, and the trace of effects (requests, sleeps,
      file reads and writes, messages shown to the user).
    - A file is given by the frame it decodes to, so a snapshot read back is
      the frame that was written.  Writing a snapshot fails where pyarrow
      refuses the frame, a column mixing strings and numbers, and then
      nothing is written.
    - pandas, requests and tenacity are modelled as far as [app.py] uses
      them; the text of the exceptions they raise is abbreviated.  The
      float parser of [pd.to_numeric] is a parameter.
    - A folium map is its settings and the layers added to it; folium's
      validation of a location is a parameter.
    - The Streamlit memoization of [init_data] and [load_usina_data] is not
      modelled: every call below runs the function body. *)

From Stdlib Require Import Floats Ascii String.
From stdpp Require Import gmap strings list.

Set Warnings "-inexact-float".
Open Scope string_scope.
Open Scope list_scope.

(** ** Exceptions and outcomes *)

Inductive exn_class :=
| RequestException   (* requests.exceptions.RequestException and subclasses *)
| KeyError
| AttributeError
| TypeError
| ValueError
| ParserError        (* what pandas and pyarrow raise on an unreadable file *)
| ArrowException     (* pyarrow.lib.ArrowTypeError and ArrowInvalid *)
| RetryError.        (* tenacity.RetryError *)

Record exn := Exn { exn_kind : exn_class; exn_str : string }.

Inductive outcome (A : Type) :=
| Return (a : A)
| Raise (e : exn).
Arguments Return {A} a.
Arguments Raise {A} e.

(** [St S A]: a computation over a mutable state [S]. *)
Definition St (S A : Type) : Type := S → outcome A * S.

Definition ret {S A} (a : A) : St S A := λ s, (Return a, s).

Definition raise {S A} (e : exn) : St S A := λ s, (Raise e, s).

Definition bind {S A B} (m : St S A) (k : A → St S B) : St S B :=
  λ s, match m s with
       | (Return a, s') => k a s'
       | (Raise e, s') => (Raise e, s')
       end.

Notation "'let*' x := m 'in' k" := (bind m (λ x, k))
  (at level 10, x name, m at level 100, k at level 200).
Notation "m '>>' k" := (bind m (λ _, k))
  (at level 90, right associativity).

(** [try: m except <classes matching catches> as e: handler e]. *)
Definition try_except {S A} (m : St S A) (catches : exn → bool)
    (handler : exn → St S A) : St S A :=
  λ s, match m s with
       | (Return a, s') => (Return a, s')
       | (Raise e, s') => if catches e then handler e s' else (Raise e, s')
       end.

(** A pure computation that may raise, run inside [St]. *)
Definition lift {S A} (o : outcome A) : St S A := λ s, (o, s).

Definition is_RequestException (e : exn) : bool :=
  match exn_kind e with RequestException => true | _ => false end.

(** [except Exception] catches every class above. *)
Definition is_Exception (e : exn) : bool := true.

(** ** pandas values, series and frames *)

Inductive value :=
| VNum (f : float)
| VStr (s : string)
| VNull.

Definition isna (v : value) : bool :=
  match v with
  | VNum f => is_nan f
  | VStr _ => false
  | VNull => true
  end.

Definition notna (v : value) : bool := negb (isna v).

Record DataFrame := mkDataFrame {
  columns : list string;
  rows : list (gmap string value)
}.

(** [pd.DataFrame()] *)
Definition DataFrame_empty : DataFrame := mkDataFrame [] [].

(** [df.empty]: some axis has length zero. *)
Definition empty (df : DataFrame) : bool :=
  match columns df, rows df with
  | _ :: _, _ :: _ => false
  | _, _ => true
  end.

Definition cell (r : gmap string value) (c : string) : value :=
  default VNull (r !! c).

Definition has_column (df : DataFrame) (c : string) : bool :=
  bool_decide (c ∈ columns df).

(** [df[c]] *)
Definition getitem (df : DataFrame) (c : string) : outcome (list value) :=
  if has_column df c then Return ((λ r, cell r c) <$> rows df)
  else Raise (Exn KeyError c).

(** [df[c] = s], for a series [s] aligned with the rows of [df]. *)
Definition setitem (df : DataFrame) (c : string) (s : list value) : DataFrame :=
  mkDataFrame
    (if has_column df c then columns df else columns df ++ [c])
    (zip_with (λ r v, <[c := v]> r) (rows df) s).

Fixpoint mapM {A B} (f : A → outcome B) (l : list A) : outcome (list B) :=
  match l with
  | [] => Return []
  | a :: l' =>
      match f a with
      | Raise e => Raise e
      | Return b =>
          match mapM f l' with
          | Raise e => Raise e
          | Return bs => Return (b :: bs)
          end
      end
  end.

(** Comparison of a cell with a float: false on a null, a [TypeError] on a
    string. *)
Definition compare (op : float → float → bool) (v : value) (x : float)
    : outcome bool :=
  match v with
  | VNum f => Return (op f x)
  | VNull => Return false
  | VStr _ => Raise (Exn TypeError "not supported between instances of 'str' and 'float'")
  end.

(** [s >= x] and [s <= x] *)
Definition Series_ge (s : list value) (x : float) : outcome (list bool) :=
  mapM (λ v, compare (λ a b, b <=? a)%float v x) s.

Definition Series_le (s : list value) (x : float) : outcome (list bool) :=
  mapM (λ v, compare (λ a b, a <=? b)%float v x) s.

(** [m1 & m2] and [m1 | m2] on boolean masks *)
Definition mask_and (m1 m2 : list bool) : list bool := zip_with andb m1 m2.
Definition mask_or (m1 m2 : list bool) : list bool := zip_with orb m1 m2.

(** [s.between(left, right)], inclusive on both ends:
    [(s >= left) & (s <= right)]. *)
Definition between (s : list value) (left right : float) : outcome (list bool) :=
  match Series_ge s left with
  | Raise e => Raise e
  | Return lmask =>
      match Series_le s right with
      | Raise e => Raise e
      | Return rmask => Return (mask_and lmask rmask)
      end
  end.

(** [df[mask]]: the rows whose mask entry is true, in order. *)
Definition boolean_index (df : DataFrame) (mask : list bool) : DataFrame :=
  mkDataFrame (columns df) (fst <$> List.filter snd (zip (rows df) mask)).

(** [df.dropna(subset=cs)] *)
Definition dropna (df : DataFrame) (subset : list string) : outcome DataFrame :=
  match List.filter (λ c, negb (has_column df c)) subset with
  | c :: _ => Raise (Exn KeyError c)
  | [] =>
      Return (mkDataFrame (columns df)
                (List.filter (λ r, forallb (λ c, notna (cell r c)) subset) (rows df)))
  end.

(** ** [filter_usinas_by_region] *)

Definition lat_norte : float * float := (5.0, -5.0)%float.
Definition long_norte : float * float := (-75.0, -60.0)%float.
Definition lat_nordeste : float * float := (-5.0, -18.0)%float.
Definition long_nordeste : float * float := (-75.0, -34.0)%float.

Definition bind_o {A B} (o : outcome A) (k : A → outcome B) : outcome B :=
  match o with
  | Return a => k a
  | Raise e => Raise e
  end.

Notation "'let?' x := o 'in' k" := (bind_o o (λ x, k))
  (at level 10, x name, o at level 100, k at level 200).

Definition filter_usinas_by_region (df : DataFrame) : outcome DataFrame :=
  let? lat1 := getitem df "latitude" in
  let? m1 := between lat1 lat_norte.2 lat_norte.1 in
  let? lon1 := getitem df "longitude" in
  let? m2 := between lon1 long_norte.1 long_norte.2 in
  let? lat2 := getitem df "latitude" in
  let? m3 := between lat2 lat_nordeste.2 lat_nordeste.1 in
  let? lon2 := getitem df "longitude" in
  let? m4 := between lon2 long_nordeste.1 long_nordeste.2 in
  Return (boolean_index df (mask_or (mask_and m1 m2) (mask_and m3 m4))).

(** ** [process_coordinates]

    The function assigns two columns on the frame it is given and returns a
    copy of the rows that have both: it runs in [St DataFrame], the state
    being the caller's frame object. *)

Definition is_str (v : value) : bool :=
  match v with VStr _ => true | _ => false end.

Definition is_num (v : value) : bool :=
  match v with VNum _ => true | _ => false end.

Fixpoint replace_char (old new : ascii) (s : string) : string :=
  match s with
  | EmptyString => EmptyString
  | String c s' =>
      String (if Ascii.eqb c old then new else c) (replace_char old new s')
  end.

(** [s.str.replace(old, new)] for one-character [old] and [new].  The [.str]
    accessor is refused on a column that holds numbers and no string; a cell
    that is not a string becomes null. *)
Definition str_replace_cell (old new : ascii) (v : value) : value :=
  match v with
  | VStr x => VStr (replace_char old new x)
  | _ => VNull
  end.

Definition Series_str_replace (s : list value) (old new : ascii)
    : outcome (list value) :=
  if existsb is_num s && negb (existsb is_str s)
  then Raise (Exn AttributeError "Can only use .str accessor with string values!")
  else Return (str_replace_cell old new <$> s).

Section Normalizer.

(** The float parser of pandas, [None] on a string that is no number. *)
Variable float_of_string : string → option float.

(** [pd.to_numeric(s, errors='coerce')] *)
Definition to_numeric_cell (v : value) : value :=
  match v with
  | VNum f => VNum f
  | VStr x => VNum (default nan (float_of_string x))
  | VNull => VNum nan
  end.

Definition to_numeric_coerce (s : list value) : list value :=
  to_numeric_cell <$> s.

Definition get_column (c : string) : St DataFrame (list value) :=
  λ df, (getitem df c, df).

Definition set_column (c : string) (s : list value) : St DataFrame unit :=
  λ df, (Return tt, setitem df c s).

Definition process_coordinates : St DataFrame DataFrame :=
  let* lat_str := get_column "lat_str" in
  let* lat := lift (Series_str_replace lat_str "," ".") in
  set_column "latitude" (to_numeric_coerce lat) >>
  let* lng_str := get_column "lng_str" in
  let* lng := lift (Series_str_replace lng_str "," ".") in
  set_column "longitude" (to_numeric_coerce lng) >>
  (λ df, (dropna df ["latitude"; "longitude"], df)).

End Normalizer.

(** ** pyarrow's conversion of a frame

    [df.to_parquet] hands the frame to pyarrow, which converts it column by
    column before anything is written.  A column of object dtype that holds
    both strings and numbers is refused; a NaN is read as a null and is
    accepted beside strings. *)

Definition is_number (v : value) : bool :=
  match v with VNum f => negb (is_nan f) | _ => false end.

Definition column_cells (df : DataFrame) (c : string) : list value :=
  (λ r, cell r c) <$> rows df.

Definition mixed (cells : list value) : bool :=
  existsb is_str cells && existsb is_number cells.

(** What the conversion raises, if anything: the error for the first
    column, in the order of the columns, that is refused. *)
Definition arrow_error (df : DataFrame) : option exn :=
  match List.find (λ c, mixed (column_cells df c)) (columns df) with
  | Some c =>
      Some (Exn ArrowException
                ("Conversion failed for column " +:+ c +:+ " with type object"))
  | None => None
  end.

(** ** Configuration *)

Definition dq : string := String "034" EmptyString.
Definition nl : string := String "010" EmptyString.

(** [Path(a) / b] *)
Definition path_join (a b : string) : string := a +:+ "/" +:+ b.

Module Config.

Definition CACHE_DIR : string := ".cache".
Definition DATA_DIR : string := "data".
Definition FRANCHISE_INPUT : string := "input/franquias.csv".
Definition USINA_INPUT : string := "input/dados_com_geolocalizacao.csv".

Definition ANEEL_CACHE : string := path_join CACHE_DIR "aneel.parquet".
Definition COMPANY_DATA : string := path_join DATA_DIR "empresa.parquet".
Definition FRANCHISE_DATA : string := path_join DATA_DIR "franquias.parquet".

Definition ANEEL_URL : string :=
  "https://dadosabertos.aneel.gov.br/api/3/action/datastore_search_sql".

(** The triple-quoted query, line by line; [dq] is the double quote. *)
Definition ANEEL_QUERY : string :=
  nl +:+
  "    SELECT " +:+ dq +:+ "NomMunicipio" +:+ dq +:+ ", " +:+ dq +:+ "SigUF"
    +:+ dq +:+ ", " +:+ dq +:+ "NomRegiao" +:+ dq +:+ "," +:+ nl +:+
  "           " +:+ dq +:+ "NumCoordNEmpreendimento" +:+ dq +:+ " AS lat_str,"
    +:+ nl +:+
  "           " +:+ dq +:+ "NumCoordEEmpreendimento" +:+ dq +:+ " AS lng_str"
    +:+ nl +:+
  "    FROM " +:+ dq +:+ "b1bd71e7-d0ad-4214-9053-cbd58e9564a7" +:+ dq +:+ nl +:+
  "    WHERE " +:+ nl +:+
  "      " +:+ dq +:+ "SigUF" +:+ dq +:+ " = 'PA'" +:+ nl +:+
  "      AND " +:+ dq +:+ "NumCoordNEmpreendimento" +:+ dq +:+ " IS NOT NULL"
    +:+ nl +:+
  "    LIMIT 80000" +:+ nl +:+
  "    ".

Definition MAP_CENTER : float * float := (-14.235, -51.9253)%float.
Definition MAP_ZOOM : nat := 4.
Definition MAP_TILES : string := "CartoDB positron".

End Config.

(** ** The world the loaders run in *)

(** What a path holds: a delimited text file, a columnar snapshot (each
    given by the frame it decodes to), or bytes neither reader accepts. *)
Inductive file :=
| Csv (d : DataFrame)
| Parquet (d : DataFrame)
| Unreadable.

(** The body of an HTTP response, by what the fetcher's decoding
    [pd.DataFrame(response.json().get('result', {}).get('records', []))]
    makes of it.  [Payload d] stands for a JSON object from which a frame is
    built: [d] is the frame of [result.records], and the empty frame when
    [result] or [records] is not there. *)
Inductive body :=
| NotJson                 (* response.json() raises JSONDecodeError *)
| NotAnObject             (* the JSON value is no object: it has no .get *)
| ResultNotAnObject       (* an object whose result is null, a number, a
                             string or an array: result has no .get *)
| RecordsNotTabular       (* an object whose result.records is a number or a
                             string: pd.DataFrame refuses it *)
| Payload (d : DataFrame). (* the frame built from result.records *)

Inductive http_outcome :=
| ConnectionFailed (reason : string)   (* requests.get raises *)
| Responded (status_code : nat) (b : body).

Record request := mkRequest {
  method : string;
  url : string;
  params : list (string * string);
  timeout : nat
}.

Inductive event :=
| EvRequest (r : request)
| EvSleep (seconds : nat)
| EvReadParquet (path : string)
| EvToParquet (path : string)
| EvReadCsv (path : string)
| EvError (msg : string)       (* st.error *)
| EvWarning (msg : string).    (* st.warning *)

(** [server n] is what the [n]-th request of the run (from 0) meets;
    [trace] lists the effects so far, the most recent first. *)
Record World := mkWorld {
  files : gmap string file;
  server : nat → http_outcome;
  trace : list event
}.

Definition emit (e : event) (w : World) : World :=
  mkWorld (files w) (server w) (e :: trace w).

Definition is_request (e : event) : bool :=
  match e with EvRequest _ => true | _ => false end.

(** The number of HTTP requests sent so far. *)
Definition attempts (w : World) : nat := length (List.filter is_request (trace w)).

Definition is_read_csv (e : event) : bool :=
  match e with EvReadCsv _ => true | _ => false end.

Definition csv_reads (w : World) : nat := length (List.filter is_read_csv (trace w)).

Definition errors (w : World) : list string :=
  omap (λ e, match e with EvError m => Some m | _ => None end) (trace w).


Definition st_error (msg : string) : St World unit :=
  λ w, (Return tt, emit (EvError msg) w).

Definition st_warning (msg : string) : St World unit :=
  λ w, (Return tt, emit (EvWarning msg) w).

(** [path.exists()] *)
Definition exists_ (path : string) : St World bool :=
  λ w, (Return (bool_decide (is_Some (files w !! path))), w).

(** [pd.read_parquet(path)] *)
Definition read_parquet (path : string) : St World DataFrame :=
  λ w, (match files w !! path with
        | Some (Parquet d) => Return d
        | Some _ => Raise (Exn ParserError "Parquet magic bytes not found")
        | None => Raise (Exn ParserError "No such file or directory")
        end, emit (EvReadParquet path) w).

(** [pd.read_csv(path)] *)
Definition read_csv (path : string) : St World DataFrame :=
  λ w, (match files w !! path with
        | Some (Csv d) => Return d
        | Some _ => Raise (Exn ParserError "Error tokenizing data")
        | None => Raise (Exn ParserError "No such file or directory")
        end, emit (EvReadCsv path) w).

(** [df.to_parquet(path)]: the frame is converted first, and a frame that
    pyarrow refuses raises before the file is touched; otherwise the file is
    overwritten.  The directories exist ([Config.init_dirs] runs first). *)
Definition to_parquet (df : DataFrame) (path : string) : St World unit :=
  λ w, match arrow_error df with
       | Some e => (Raise e, w)
       | None =>
           (Return tt,
            mkWorld (<[path := Parquet df]> (files w)) (server w)
                    (EvToParquet path :: trace w))
       end.

(** ** requests *)

Record response := mkResponse { status_code_of : nat; body_of : body }.

(** [requests.get(url, params=params, timeout=timeout)] *)
Definition requests_get (u : string) (ps : list (string * string)) (t : nat)
    : St World response :=
  λ w, (match server w (attempts w) with
        | ConnectionFailed reason => Raise (Exn RequestException reason)
        | Responded code b => Return (mkResponse code b)
        end, emit (EvRequest (mkRequest "GET" u ps t)) w).

(** [response.raise_for_status()]: an HTTPError on a 4xx or 5xx status. *)
Definition is_http_error (code : nat) : bool :=
  ((400 <=? code) && (code <? 600))%nat.
Arguments is_http_error : simpl never.

Definition raise_for_status (r : response) : outcome unit :=
  if is_http_error (status_code_of r)
  then Raise (Exn RequestException "HTTPError")
  else Return tt.

(** [pd.DataFrame(response.json().get('result', {}).get('records', []))] *)
Definition records_frame (r : response) : outcome DataFrame :=
  match body_of r with
  | NotJson => Raise (Exn RequestException "JSONDecodeError")
  | NotAnObject => Raise (Exn AttributeError "object has no attribute 'get'")
  | ResultNotAnObject => Raise (Exn AttributeError "object has no attribute 'get'")
  | RecordsNotTabular => Raise (Exn ValueError "DataFrame constructor not properly called!")
  | Payload d => Return d
  end.

(** ** tenacity *)

(** [wait_exponential(multiplier, min, max)] after attempt [attempt_number]. *)
Definition wait_exponential (multiplier min max : nat) (attempt_number : nat) : nat :=
  Nat.max min (Nat.min (multiplier * 2 ^ (attempt_number - 1)) max)%nat.

(** [@retry(stop=stop_after_attempt(n), wait=wait)] around [f], seen from
    attempt [attempt_number] with [retries_left] more attempts allowed after
    it: a call that returns ends the loop; a call that raises (any
    exception) is repeated after a sleep, unless it was the last attempt
    allowed, which ends in a [RetryError]. *)
Fixpoint retry_from {A} (wait : nat → nat) (f : St World A)
    (attempt_number retries_left : nat) : St World A :=
  λ w, match f w with
       | (Return a, w') => (Return a, w')
       | (Raise e, w') =>
           match retries_left with
           | 0 => (Raise (Exn RetryError "RetryError"), w')
           | S retries_left' =>
               retry_from wait f (S attempt_number) retries_left'
                 (emit (EvSleep (wait attempt_number)) w')
           end
       end.

Definition retry {A} (stop_after_attempt : nat) (wait : nat → nat)
    (f : St World A) : St World A :=
  retry_from wait f 1 (stop_after_attempt - 1).

(** ** The loaders of [app.py] *)

Definition fetch_aneel_body : St World DataFrame :=
  try_except
    (let* response := requests_get Config.ANEEL_URL
                        [("sql", Config.ANEEL_QUERY)] 10 in
     lift (raise_for_status response) >>
     lift (records_frame response))
    is_RequestException
    (λ e, st_error ("Erro na API ANEEL: " +:+ exn_str e) >>
          ret DataFrame_empty).

Definition fetch_aneel : St World DataFrame :=
  retry 3 (wait_exponential 1 2 10) fetch_aneel_body.

Section Loaders.

Variable float_of_string : string → option float.

(** A call [df = process_coordinates(df)] on a local frame: the result is
    kept and the frame passed in is no longer referenced. *)
Definition call_process_coordinates (df : DataFrame) : St World DataFrame :=
  lift (process_coordinates float_of_string df).1.

Definition load_aneel_data : St World DataFrame :=
  let* cached :=
    (let* present := exists_ Config.ANEEL_CACHE in
     if present then
       try_except
         (let* d := read_parquet Config.ANEEL_CACHE in ret (Some d))
         is_Exception
         (λ e, st_warning ("Cache ANEEL inválido, recriando...: " +:+ exn_str e) >>
               ret None)
     else ret None) in
  match cached with
  | Some d => ret d
  | None =>
      let* df := fetch_aneel in
      if negb (empty df) then
        let* df := call_process_coordinates df in
        to_parquet df Config.ANEEL_CACHE >>
        ret df
      else
        st_error "Dados da ANEEL estão vazios." >>
        ret df
  end.

Definition load_franchise_data : St World DataFrame :=
  let* cached :=
    (let* present := exists_ Config.FRANCHISE_DATA in
     if present then
       try_except
         (let* d := read_parquet Config.FRANCHISE_DATA in ret (Some d))
         is_Exception
         (λ e, st_error ("Erro ao carregar dados de franquias: " +:+ exn_str e) >>
               ret None)
     else ret None) in
  match cached with
  | Some d => ret d
  | None =>
      let* loaded :=
        (let* present := exists_ Config.FRANCHISE_INPUT in
         if present then
           try_except
             (let* df := read_csv Config.FRANCHISE_INPUT in
              let* df := lift (dropna df ["latitude"; "longitude"]) in
              to_parquet df Config.FRANCHISE_DATA >>
              ret (Some df))
             is_Exception
             (λ e, st_error ("Erro ao carregar franquias do CSV: " +:+ exn_str e) >>
                   ret None)
         else ret None) in
      match loaded with
      | Some df => ret df
      | None => ret DataFrame_empty
      end
  end.

Definition load_usina_data : St World DataFrame :=
  let* loaded :=
    (let* present := exists_ Config.USINA_INPUT in
     if present then
       try_except
         (let* df := read_csv Config.USINA_INPUT in
          let* df := lift (dropna df ["latitude"; "longitude"]) in
          let* df := lift (filter_usinas_by_region df) in
          ret (Some df))
         is_Exception
         (λ e, st_error ("Erro ao carregar usinas do CSV: " +:+ exn_str e) >>
               ret None)
     else ret None) in
  match loaded with
  | Some df => ret df
  | None =>
      st_error "Arquivo de usinas não encontrado." >>
      ret DataFrame_empty
  end.

End Loaders.

(** ** The remaining loaders *)

Definition load_company_data : St World DataFrame :=
  let* cached :=
    (let* present := exists_ Config.COMPANY_DATA in
     if present then
       try_except
         (let* d := read_parquet Config.COMPANY_DATA in ret (Some d))
         is_Exception
         (λ e, st_error ("Erro nos dados da empresa: " +:+ exn_str e) >>
               ret None)
     else ret None) in
  match cached with
  | Some d => ret d
  | None => ret DataFrame_empty
  end.

Section InitData.

Variable float_of_string : string → option float.

(** The dict display is evaluated entry by entry, in the order written. *)
Definition init_data : St World (gmap string DataFrame) :=
  let* aneel := load_aneel_data float_of_string in
  let* franchise := load_franchise_data in
  let* usinas := load_usina_data in
  ret (<["usinas" := usinas]> (<["franchise" := franchise]> (<["aneel" := aneel]> ∅))).

End InitData.

(** ** The map and its layers

    A folium map is modelled by its settings and the layers added to it, in
    the order they were added.  A location is a pair of floats that folium
    has validated; its validation of a pair of cells is a parameter. *)

Record Marker := mkMarker {
  marker_location : float * float;
  popup : value;
  icon_color : string
}.

Inductive layer :=
| HeatMap (data : list (float * float)) (radius : nat) (name : string)
          (gradient : option (list (float * string)))
| MarkerCluster (name : string) (markers : list Marker)
| LayerControl.

Record Map := mkMap {
  map_location : float * float;
  zoom_start : nat;
  tiles : string;
  prefer_canvas : bool;
  control_scale : bool;
  children : list layer
}.

(** [layer.add_to(mapa)] *)
Definition add_to (l : layer) : St Map unit :=
  λ m, (Return tt,
        mkMap (map_location m) (zoom_start m) (tiles m) (prefer_canvas m)
              (control_scale m) (children m ++ [l])).

(** [df[[c1, c2]].values]: the rows as pairs of cells.  Selecting by a list
    of labels raises [KeyError] naming the labels that are missing, with one
    text when none of them is a column and another when some are. *)
Definition getitem_pair (df : DataFrame) (c1 c2 : string)
    : outcome (list (value * value)) :=
  match has_column df c1, has_column df c2 with
  | true, true => Return ((λ r, (cell r c1, cell r c2)) <$> rows df)
  | false, false =>
      Raise (Exn KeyError ("None of [Index(['" +:+ c1 +:+ "', '" +:+ c2
                           +:+ "'], dtype='object')] are in the [columns]"))
  | false, true => Raise (Exn KeyError ("['" +:+ c1 +:+ "'] not in index"))
  | true, false => Raise (Exn KeyError ("['" +:+ c2 +:+ "'] not in index"))
  end.

(** [row[c]] and [row.get(c, default)] for a row of [df.iterrows()]. *)
Definition row_getitem (df : DataFrame) (r : gmap string value) (c : string)
    : outcome value :=
  if has_column df c then Return (cell r c) else Raise (Exn KeyError c).

Definition row_get (df : DataFrame) (r : gmap string value) (c : string)
    (default : value) : value :=
  if has_column df c then cell r c else default.

(** [create_base_map] *)
Definition create_base_map : Map :=
  mkMap Config.MAP_CENTER Config.MAP_ZOOM Config.MAP_TILES true true [].

Section MapLayers.

(** What folium makes of a location given as two cells: the pair of floats,
    or the exception it raises. *)
Variable validate_location : value → value → outcome (float * float).

Definition add_heatmap (data : DataFrame) (name : string) (radius : nat)
    (gradient : option (list (float * string))) : St Map unit :=
  if negb (empty data) then
    let* points :=
      lift (let? values := getitem_pair data "latitude" "longitude" in
            mapM (λ p, validate_location p.1 p.2) values) in
    add_to (HeatMap points radius name gradient)
  else ret tt.

Definition add_usina_heatmap (data : DataFrame) : St Map unit :=
  add_heatmap data "Usinas" 10
    (Some [(0.0, "yellow"); (0.5, "orange"); (1.0, "red")]%float).

(** The cluster is filled marker by marker and added to the map after the
    loop; a marker that cannot be built ends the loop with the map as it
    was. *)
Definition add_franchise_markers (data : DataFrame) : St Map unit :=
  if negb (empty data) then
    let* markers :=
      lift (mapM (λ row,
                    let? lat := row_getitem data row "latitude" in
                    let? lon := row_getitem data row "longitude" in
                    let popup := row_get data row "Franquia" (VStr "N/A") in
                    let? location := validate_location lat lon in
                    Return (mkMarker location popup "orange"))
                 (rows data)) in
    add_to (MarkerCluster "Franquias" markers)
  else ret tt.

End MapLayers.

(** * The vocabulary of the statements *)

(** ** The regional filter, in the words of the specification *)

Definition in_interval (lo hi x : float) : Prop :=
  (lo <=? x)%float = true ∧ (x <=? hi)%float = true.

Definition in_North (lat lon : float) : Prop :=
  in_interval (-5.0) 5.0 lat ∧ in_interval (-75.0) (-60.0) lon.

Definition in_Northeast (lat lon : float) : Prop :=
  in_interval (-18.0) (-5.0) lat ∧ in_interval (-75.0) (-34.0) lon.

Definition retained (r : gmap string value) : Prop :=
  match cell r "latitude", cell r "longitude" with
  | VNum lat, VNum lon => in_North lat lon ∨ in_Northeast lat lon
  | _, _ => False
  end.

#[export] Instance retained_dec r : Decision (retained r).
Proof.
  unfold retained, in_North, in_Northeast, in_interval.
  destruct (cell r "latitude"), (cell r "longitude"); apply _.
Defined.

(** A record set with numeric latitude and longitude: both columns exist
    and hold numbers. *)
Definition numeric_coordinates (df : DataFrame) : Prop :=
  has_column df "latitude" = true ∧ has_column df "longitude" = true ∧
  ∀ r, r ∈ rows df →
    is_num (cell r "latitude") = true ∧ is_num (cell r "longitude") = true.

(** ** What the filter and the normalizer compute, cell by cell *)

Definition compare_b (op : float → float → bool) (v : value) (x : float) : bool :=
  match v with VNum f => op f x | _ => false end.

Definition between_b (left right : float) (v : value) : bool :=
  compare_b (λ a b, b <=? a)%float v left && compare_b (λ a b, a <=? b)%float v right.

(** The row test the filter computes. *)
Definition keep (r : gmap string value) : bool :=
  between_b (-5.0) 5.0 (cell r "latitude") && between_b (-75.0) (-60.0) (cell r "longitude")
  || between_b (-18.0) (-5.0) (cell r "latitude") && between_b (-75.0) (-34.0) (cell r "longitude").

Definition comparable (df : DataFrame) (c : string) : Prop :=
  has_column df c = true ∧ Forall (λ r, is_str (cell r c) = false) (rows df).

Definition with_column (cs : list string) (c : string) : list string :=
  if bool_decide (c ∈ cs) then cs else cs ++ [c].

(** A column the [.str] accessor accepts. *)
Definition str_column (df : DataFrame) (c : string) : Prop :=
  has_column df c = true ∧
  existsb is_num ((λ r, cell r c) <$> rows df)
    && negb (existsb is_str ((λ r, cell r c) <$> rows df)) = false.

(** ** Frames pyarrow converts *)

(** No column holds both strings and numbers.  A delimited file read in one
    piece gives such a frame, since [read_csv] infers one type per column;
    the records of a JSON body need not. *)
Definition one_type_per_column (df : DataFrame) : Prop :=
  Forall (λ c, mixed (column_cells df c) = false) (columns df).

(** ** Effects of the fetcher and of the loaders *)

(** The one request the fetcher sends. *)
Definition aneel_request : request :=
  mkRequest "GET" Config.ANEEL_URL [("sql", Config.ANEEL_QUERY)] 10.

(** [w'] is [w] after the effects [evs] (most recent first), none of which
    wrote a file. *)
Definition after (evs : list event) (w w' : World) : Prop :=
  files w' = files w ∧ server w' = server w ∧ trace w' = evs ++ trace w.

(** The effects the fetcher has: the fixed request, sleeps between
    attempts, and error messages. *)
Definition fetcher_event (e : event) : Prop :=
  match e with
  | EvRequest r => r = aneel_request
  | EvSleep _ | EvError _ => True
  | _ => False
  end.

Definition is_to_parquet (e : event) : bool :=
  match e with EvToParquet _ => true | _ => false end.

(** The number of snapshot writes so far. *)
Definition snapshot_writes (w : World) : nat :=
  length (List.filter is_to_parquet (trace w)).

(** The snapshot is absent, or what is stored there does not deserialize. *)
Definition cache_miss (w : World) : Prop :=
  match files w !! Config.ANEEL_CACHE with
  | Some (Parquet _) => False
  | _ => True
  end.

(** The world after the loader has looked for the snapshot and missed:
    untouched when the file is absent; when it is there and unreadable, the
    failed read and the warning shown for it. *)
Definition cache_probe (w : World) : World :=
  match files w !! Config.ANEEL_CACHE with
  | None => w
  | Some _ =>
      emit (EvWarning ("Cache ANEEL inválido, recriando...: "
                       +:+ "Parquet magic bytes not found"))
        (emit (EvReadParquet Config.ANEEL_CACHE) w)
  end.

(** Both coordinates present. *)
Definition has_coordinates (r : gmap string value) : bool :=
  notna (cell r "latitude") && notna (cell r "longitude").

(** ** Reading the query string *)

Definition is_space (c : ascii) : bool :=
  Ascii.eqb c " " || Ascii.eqb c "010" || Ascii.eqb c "009".

(** The whitespace-separated words of a string, [cur] being the word read
    so far. *)
Fixpoint words_from (cur : string) (s : string) : list string :=
  match s with
  | EmptyString => if String.eqb cur EmptyString then [] else [cur]
  | String c s' =>
      if is_space c then
        if String.eqb cur EmptyString then words_from EmptyString s'
        else cur :: words_from EmptyString s'
      else words_from (cur +:+ String c EmptyString) s'
  end.

Definition words (s : string) : list string := words_from EmptyString s.

(** The words after the first occurrence of [kw], and those before it. *)
Fixpoint drop_through (kw : string) (l : list string) : list string :=
  match l with
  | [] => []
  | x :: l' => if String.eqb x kw then l' else drop_through kw l'
  end.

Fixpoint take_until (kw : string) (l : list string) : list string :=
  match l with
  | [] => []
  | x :: l' => if String.eqb x kw then [] else x :: take_until kw l'
  end.

Fixpoint split_on (kw : string) (cur : list string) (l : list string)
    : list (list string) :=
  match l with
  | [] => [cur]
  | x :: l' =>
      if String.eqb x kw then cur :: split_on kw [] l'
      else split_on kw (cur ++ [x]) l'
  end.

(** The conditions of the WHERE clause, joined there by AND. *)
Definition where_conditions (q : string) : list (list string) :=
  split_on "AND" [] (take_until "LIMIT" (drop_through "WHERE" (words q))).

(** The select list: the words between SELECT and FROM. *)
Definition select_list (q : string) : list string :=
  take_until "FROM" (drop_through "SELECT" (words q)).

Definition limit_of (q : string) : list string := drop_through "LIMIT" (words q).

Definition quoted (s : string) : string := dq +:+ s +:+ dq.

(** The query keeps only rows where column [col] is not null. *)
Definition tests_not_null (q col : string) : Prop :=
  [quoted col; "IS"; "NOT"; "NULL"] ∈ where_conditions q.

(** The query keeps only rows where column [col] equals the literal [lit]. *)
Definition tests_equal (q col lit : string) : Prop :=
  [quoted col; "="; lit] ∈ where_conditions q.

(** The query descriptor as the specification words it: rows filtered by
    region code and by the coordinate fields, both the one selected as
    [lat_str] and the one selected as [lng_str], being non-null. *)
Definition filters_region_and_coordinates (q : string) : Prop :=
  tests_equal q "SigUF" "'PA'" ∧
  tests_not_null q "NumCoordNEmpreendimento" ∧
  tests_not_null q "NumCoordEEmpreendimento".

Section NormalizerVocabulary.

Variable float_of_string : string → option float.

(** What the normalizer makes of a raw coordinate cell: the comma replaced
    by a period and the result parsed; NaN when that fails. *)
Definition normalize (v : value) : value :=
  to_numeric_cell float_of_string (str_replace_cell "," "." v).

(** A row with its two parsed coordinates assigned. *)
Definition with_coordinates (r : gmap string value) : gmap string value :=
  <["longitude" := normalize (cell r "lng_str")]>
    (<["latitude" := normalize (cell r "lat_str")]> r).

Definition both_parsed (r : gmap string value) : bool :=
  notna (normalize (cell r "lat_str")) && notna (normalize (cell r "lng_str")).

(** A raw cell that does not parse: it is no string, or its string, the
    comma replaced, is no number. *)
Definition unparsable (v : value) : Prop :=
  ∀ x, v = VStr x → float_of_string (replace_char "," "." x) = None.

End NormalizerVocabulary.

Section LoaderVocabulary.

Variable float_of_string : string → option float.

(** What the registry loader does after a miss:
    lines 93 to 99 of [load_aneel_data]. *)
Definition rebuild_aneel : St World DataFrame :=
  let* df := fetch_aneel in
  if negb (empty df) then
    let* df := call_process_coordinates float_of_string df in
    to_parquet df Config.ANEEL_CACHE >>
    ret df
  else
    st_error "Dados da ANEEL estão vazios." >>
    ret df.


End LoaderVocabulary.

(** ** Further vocabulary *)

(** A body that is JSON and from which the decoding of line 80 builds no
    frame: what it raises is no [RequestException]. *)
Definition undecodable (b : body) : Prop :=
  b = NotAnObject ∨ b = ResultNotAnObject ∨ b = RecordsNotTabular.



(** The world after the franchise loader has looked for its snapshot and
    missed. *)
Definition franchise_probe (w : World) : World :=
  match files w !! Config.FRANCHISE_DATA with
  | None => w
  | Some _ =>
      emit (EvError ("Erro ao carregar dados de franquias: "
                     +:+ "Parquet magic bytes not found"))
        (emit (EvReadParquet Config.FRANCHISE_DATA) w)
  end.

(** What the plant loader computes from the frame it has read. *)
Definition usina_pipeline (src : DataFrame) : outcome DataFrame :=
  let? df := dropna src ["latitude"; "longitude"] in
  filter_usinas_by_region df.

(** The map [m] with the layer [l] added last. *)
Definition with_layer (m : Map) (l : layer) : Map :=
  mkMap (map_location m) (zoom_start m) (tiles m) (prefer_canvas m)
        (control_scale m) (children m ++ [l]).

(** * Sample inputs *)

(** A parser that knows the numbers used below. *)
Definition sample_float_of_string (s : string) : option float :=
  if String.eqb s "-1.5" then Some (-1.5)%float
  else if String.eqb s "-48.25" then Some (-48.25)%float
  else if String.eqb s "-3.0" then Some (-3.0)%float
  else None.

Definition raw_row (lat lng : value) : gmap string value :=
  <["SigUF" := VStr "PA"]> (<["lat_str" := lat]> (<["lng_str" := lng]> ∅)).

(** Three fetched records: one well formed, one whose latitude is no
    number, one without a longitude. *)
Definition sample_records : DataFrame :=
  mkDataFrame ["SigUF"; "lat_str"; "lng_str"]
    [raw_row (VStr "-1,5") (VStr "-48,25");
     raw_row (VStr "abc") (VStr "-48,25");
     raw_row (VStr "-3,0") VNull].

Definition sample_records_after : DataFrame :=
  mkDataFrame ["SigUF"; "lat_str"; "lng_str"; "latitude"; "longitude"]
    [<["latitude" := VNum (-1.5)]> (<["longitude" := VNum (-48.25)]>
       (raw_row (VStr "-1,5") (VStr "-48,25")));
     <["latitude" := VNum nan]> (<["longitude" := VNum (-48.25)]>
       (raw_row (VStr "abc") (VStr "-48,25")));
     <["latitude" := VNum (-3.0)]> (<["longitude" := VNum nan]>
       (raw_row (VStr "-3,0") VNull))].

Definition sample_normalized : DataFrame :=
  mkDataFrame ["SigUF"; "lat_str"; "lng_str"; "latitude"; "longitude"]
    [<["latitude" := VNum (-1.5)]> (<["longitude" := VNum (-48.25)]>
       (raw_row (VStr "-1,5") (VStr "-48,25")))].

Definition located (name : string) (lat lon : value) : gmap string value :=
  <["Franquia" := VStr name]> (<["latitude" := lat]> (<["longitude" := lon]> ∅)).

(** Four plants: on the corner of the North box, just north of it, inside
    it, and far outside. *)
Definition sample_plants : DataFrame :=
  mkDataFrame ["Franquia"; "latitude"; "longitude"]
    [located "a" (VNum 5.0) (VNum (-60.0));
     located "b" (VNum 5.0001) (VNum (-60.0));
     located "c" (VNum (-2.0)) (VNum (-65.0));
     located "d" (VNum 10.0) (VNum (-65.0))].

Definition sample_plants_kept : DataFrame :=
  mkDataFrame ["Franquia"; "latitude"; "longitude"]
    [located "a" (VNum 5.0) (VNum (-60.0));
     located "c" (VNum (-2.0)) (VNum (-65.0))].

(** Five franchises, the third without a longitude. *)
Definition sample_franchises : DataFrame :=
  mkDataFrame ["Franquia"; "latitude"; "longitude"]
    [located "f1" (VNum (-1.5)) (VNum (-48.25));
     located "f2" (VNum (-3.0)) (VNum (-48.25));
     located "f3" (VNum (-3.0)) (VNum nan);
     located "f4" (VNum (-1.5)) (VNum (-3.0));
     located "f5" (VNum (-3.0)) (VNum (-1.5))].

Definition server_down (n : nat) : http_outcome := ConnectionFailed "timed out".

Definition server_up (n : nat) : http_outcome :=
  Responded 200 (Payload sample_records).


(** An endpoint that fails twice and then answers. *)
Definition server_flaky (n : nat) : http_outcome :=
  match n with
  | 0 | 1 => ConnectionFailed "timed out"
  | _ => Responded 200 (Payload sample_records)
  end.

Definition world_flaky : World := mkWorld ∅ server_flaky [].

(** An endpoint that answers 200 with a JSON array. *)
Definition world_malformed : World :=
  mkWorld ∅ (λ _, Responded 200 NotAnObject) [].


Definition world_corrupt : World :=
  mkWorld {[Config.ANEEL_CACHE := Unreadable]} server_up [].


Definition world_down : World := mkWorld ∅ server_down [].

Definition world_franchises : World :=
  mkWorld {[Config.FRANCHISE_INPUT := Csv sample_franchises]} server_down [].



(** An endpoint that answers 200 with a JSON object whose [result] is
    null. *)
Definition world_no_result : World :=
  mkWorld ∅ (λ _, Responded 200 ResultNotAnObject) [].

(** ** Further sample inputs *)

(** Plants with a latitude that is text, and a record set with raw
    latitudes only. *)
Definition sample_plants_text : DataFrame :=
  mkDataFrame ["Franquia"; "latitude"; "longitude"]
    [located "a" (VNum 5.0) (VNum (-60.0));
     located "e" (VStr "n/a") (VNum (-60.0))].

Definition sample_latitudes_only : DataFrame :=
  mkDataFrame ["latitude"] [<["latitude" := VNum 5.0]> ∅].

Definition sample_lat_str_only : DataFrame :=
  mkDataFrame ["lat_str"] [<["lat_str" := VStr "-1,5"]> ∅].


Definition world_503 : World :=
  mkWorld ∅ (λ _, Responded 503 (Payload sample_records)) [].



Definition world_wrong_fields : World :=
  mkWorld ∅ (λ _, Responded 200 (Payload sample_plants)) [].

Definition world_franchise_stale : World :=
  mkWorld (<[Config.FRANCHISE_DATA := Unreadable]>
             {[Config.FRANCHISE_INPUT := Csv sample_franchises]}) server_down [].

Definition world_franchise_garbled : World :=
  mkWorld {[Config.FRANCHISE_INPUT := Unreadable]} server_down [].

Definition world_plants : World :=
  mkWorld {[Config.USINA_INPUT := Csv sample_plants]} server_down [].

Definition world_plants_wrong_fields : World :=
  mkWorld {[Config.USINA_INPUT := Csv sample_records]} server_down [].

(** A world with the registry snapshot and the two source files. *)
Definition world_complete : World :=
  mkWorld (<[Config.ANEEL_CACHE := Parquet sample_normalized]>
             (<[Config.FRANCHISE_INPUT := Csv sample_franchises]>
                {[Config.USINA_INPUT := Csv sample_plants]})) server_down [].

(** A sample validation: it accepts the pairs of numbers that are no NaN and
    nothing else. *)
Definition sample_validate_location (lat lon : value) : outcome (float * float) :=
  match lat, lon with
  | VNum x, VNum y =>
      if is_nan x || is_nan y then Raise (Exn TypeError "not a location")
      else Return (x, y)
  | _, _ => Raise (Exn TypeError "not a location")
  end.

(** * Properties *)

(** ** Series comparisons and masks *)

Lemma mapM_compare op x (s : list value) :
  Forall (λ v, is_str v = false) s →
  mapM (λ v, compare op v x) s = Return ((λ v, compare_b op v x) <$> s).
Proof.
  induction 1 as [|v s Hv _ IH]; [reflexivity|].
  cbn [mapM]. rewrite IH. destruct v; [reflexivity|discriminate|reflexivity].
Qed.

Lemma mapM_compare_inv op x (s : list value) m :
  mapM (λ v, compare op v x) s = Return m →
  Forall (λ v, is_str v = false) s.
Proof.
  revert m. induction s as [|v s IH]; intros m H; [constructor|].
  cbn [mapM] in H.
  destruct v as [f|t|]; cbn [compare] in H; try discriminate;
    destruct (mapM _ s) as [bs|e] eqn:E; try discriminate;
    (constructor; [reflexivity|by eapply IH]).
Qed.

Lemma mask_and_fmap {A} (f g : A → bool) (l : list A) :
  mask_and (f <$> l) (g <$> l) = (λ a, f a && g a) <$> l.
Proof. induction l as [|a l IH]; [reflexivity|]. cbn. by f_equal. Qed.

Lemma mask_or_fmap {A} (f g : A → bool) (l : list A) :
  mask_or (f <$> l) (g <$> l) = (λ a, f a || g a) <$> l.
Proof. induction l as [|a l IH]; [reflexivity|]. cbn. by f_equal. Qed.

Lemma between_Return (s : list value) left right :
  Forall (λ v, is_str v = false) s →
  between s left right = Return (between_b left right <$> s).
Proof.
  intros H. unfold between, Series_ge, Series_le.
  rewrite !mapM_compare by done. by rewrite mask_and_fmap.
Qed.

Lemma between_inv (s : list value) left right m :
  between s left right = Return m → Forall (λ v, is_str v = false) s.
Proof.
  unfold between, Series_ge. intros H.
  destruct (mapM _ s) as [lm|e] eqn:E; [|discriminate].
  by eapply mapM_compare_inv.
Qed.

Lemma boolean_index_fmap (df : DataFrame) (p : gmap string value → bool) :
  boolean_index df (p <$> rows df) = mkDataFrame (columns df) (List.filter p (rows df)).
Proof.
  unfold boolean_index. f_equal.
  induction (rows df) as [|r l IH]; [reflexivity|].
  cbn. destruct (p r); cbn; by rewrite IH.
Qed.

Lemma filter_filter_same {A} (p : A → bool) (l : list A) :
  List.filter p (List.filter p l) = List.filter p l.
Proof.
  induction l as [|a l IH]; [reflexivity|].
  cbn [List.filter]. destruct (p a) eqn:K; [|exact IH].
  cbn [List.filter]. by rewrite K, IH.
Qed.

Lemma filter_usinas_by_region_Return df :
  comparable df "latitude" → comparable df "longitude" →
  filter_usinas_by_region df = Return (mkDataFrame (columns df) (List.filter keep (rows df))).
Proof.
  intros [Hc1 H1] [Hc2 H2]. unfold filter_usinas_by_region, getitem.
  rewrite Hc1, Hc2. cbn [bind_o].
  assert (F1 : Forall (λ v, is_str v = false) ((λ r, cell r "latitude") <$> rows df))
    by (by apply Forall_fmap).
  assert (F2 : Forall (λ v, is_str v = false) ((λ r, cell r "longitude") <$> rows df))
    by (by apply Forall_fmap).
  rewrite !between_Return by done. cbn [bind_o].
  rewrite <- !list_fmap_compose, !mask_and_fmap, mask_or_fmap.
  by rewrite boolean_index_fmap.
Qed.

Lemma filter_usinas_by_region_inv df out :
  filter_usinas_by_region df = Return out →
  comparable df "latitude" ∧ comparable df "longitude".
Proof.
  unfold filter_usinas_by_region, getitem, comparable. intros H.
  destruct (has_column df "latitude") eqn:Hc1; [|discriminate].
  cbn [bind_o] in H.
  destruct (between _ lat_norte.2 _) as [m1|e] eqn:E1; [|discriminate].
  cbn [bind_o] in H.
  destruct (has_column df "longitude") eqn:Hc2; [|discriminate].
  cbn [bind_o] in H.
  destruct (between _ long_norte.1 _) as [m2|e] eqn:E2; [|discriminate].
  apply between_inv, Forall_fmap in E1. apply between_inv, Forall_fmap in E2.
  done.
Qed.

Lemma keep_retained r : keep r = true ↔ retained r.
Proof.
  unfold keep, retained, in_North, in_Northeast, in_interval, between_b.
  destruct (cell r "latitude") as [lat| |], (cell r "longitude") as [lon| |];
    cbn [compare_b]; rewrite ?andb_false_r; cbn; try (split; [discriminate|tauto]).
  rewrite orb_true_iff, !andb_true_iff. tauto.
Qed.

Lemma filter_keep_retained (l : list (gmap string value)) :
  List.filter keep l = filter retained l.
Proof.
  induction l as [|r l IH]; [reflexivity|].
  cbn [List.filter]. rewrite filter_cons, IH.
  destruct (keep r) eqn:K.
  - apply keep_retained in K. by rewrite decide_True.
  - rewrite decide_False; [done|]. intros R. apply keep_retained in R. congruence.
Qed.

Lemma numeric_comparable df :
  numeric_coordinates df → comparable df "latitude" ∧ comparable df "longitude".
Proof.
  intros (H1 & H2 & H). unfold comparable. rewrite H1, H2.
  split; (split; [done|]); apply Forall_forall; intros r Hr;
    destruct (H r Hr) as [N1 N2].
  - by destruct (cell r "latitude").
  - by destruct (cell r "longitude").
Qed.

(** C4.  On a record set with numeric latitude and longitude the regional
    filter returns, with the columns unchanged, exactly the rows that lie
    in the North box (latitude in [-5, 5], longitude in [-75, -60]) or in
    the Northeast box (latitude in [-18, -5], longitude in [-75, -34]),
    bounds included, in their input order; a row at latitude 5.0 and
    longitude -60.0 is kept and a row at latitude 5.0001 is dropped. *)
Theorem filter_usinas_by_region_boxes (df : DataFrame) :
  numeric_coordinates df →
  ∃ out, filter_usinas_by_region df = Return out ∧
    columns out = columns df ∧
    rows out = filter retained (rows df) ∧
    (∀ r, r ∈ rows out ↔
          r ∈ rows df ∧ ∃ lat lon,
            cell r "latitude" = VNum lat ∧ cell r "longitude" = VNum lon ∧
            (in_North lat lon ∨ in_Northeast lat lon)) ∧
    (∀ r, r ∈ rows df → cell r "latitude" = VNum 5.0 →
          cell r "longitude" = VNum (-60.0) → r ∈ rows out) ∧
    (∀ r, cell r "latitude" = VNum 5.0001 → r ∉ rows out).
Proof.
  intros Hnum. destruct (numeric_comparable df Hnum) as [C1 C2].
  eexists. split; [by apply filter_usinas_by_region_Return|].
  cbn [columns rows]. rewrite filter_keep_retained.
  split; [done|]. split; [done|]. split; [|split].
  - intros r. rewrite list_elem_of_filter. unfold retained.
    split.
    + intros [R Hr]. split; [done|].
      destruct (cell r "latitude") as [lat| |]; try done.
      destruct (cell r "longitude") as [lon| |]; try done.
      by exists lat, lon.
    + intros [Hr (lat & lon & -> & -> & R)]. done.
  - intros r Hr Hlat Hlon. apply list_elem_of_filter. split; [|done].
    unfold retained. rewrite Hlat, Hlon. left.
    unfold in_North, in_interval. by vm_compute.
  - intros r Hlat [R _]%list_elem_of_filter.
    unfold retained in R. rewrite Hlat in R.
    destruct (cell r "longitude") as [lon| |]; try done.
    destruct R as [[[_ R] _]|[[_ R] _]]; vm_compute in R; discriminate.
Qed.

(** C7.  The regional filter is idempotent: whenever it returns a record
    set, filtering that set again returns it unchanged (same columns, same
    rows, same order). *)
Theorem filter_usinas_by_region_idempotent (df out : DataFrame) :
  filter_usinas_by_region df = Return out →
  filter_usinas_by_region out = Return out.
Proof.
  intros H. destruct (filter_usinas_by_region_inv _ _ H) as [[Hc1 F1] [Hc2 F2]].
  rewrite filter_usinas_by_region_Return in H by done.
  injection H as <-.
  rewrite filter_usinas_by_region_Return; cbn [columns rows].
  - by rewrite filter_filter_same.
  - split; [done|]. cbn [rows]. rewrite Forall_forall in F1 |- *.
    intros r [Hr _]%list_elem_of_In%filter_In. apply F1. by apply list_elem_of_In.
  - split; [done|]. cbn [rows]. rewrite Forall_forall in F2 |- *.
    intros r [Hr _]%list_elem_of_In%filter_In. apply F2. by apply list_elem_of_In.
Qed.

(** ** The coordinate normalizer *)

Section NormalizerProperties.

Variable float_of_string : string → option float.

Local Abbreviation normalize := (normalize float_of_string).
Local Abbreviation with_coordinates := (with_coordinates float_of_string).
Local Abbreviation both_parsed := (both_parsed float_of_string).
Local Abbreviation unparsable := (unparsable float_of_string).

Lemma filter_fmap {A B} (p : B → bool) (f : A → B) (l : list A) :
  List.filter p (f <$> l) = f <$> List.filter (λ a, p (f a)) l.
Proof.
  induction l as [|a l IH]; [reflexivity|].
  cbn. destruct (p (f a)); cbn; by rewrite IH.
Qed.

Lemma cell_insert_eq r c v : cell (<[c := v]> r) c = v.
Proof. unfold cell. by rewrite lookup_insert_eq. Qed.

Lemma cell_insert_ne r c c' v : c ≠ c' → cell (<[c := v]> r) c' = cell r c'.
Proof. intros H. unfold cell. by rewrite lookup_insert_ne. Qed.

Lemma elem_of_with_column cs c c' : c' ∈ with_column cs c ↔ c' ∈ cs ∨ c' = c.
Proof.
  unfold with_column. case_bool_decide as E.
  - split; [tauto|]. by intros [?| ->].
  - by rewrite elem_of_app, list_elem_of_singleton.
Qed.

Lemma setitem_normalized df c c' (f : gmap string value → gmap string value)
    (l : list (gmap string value)) :
  rows df = f <$> l →
  setitem df c (to_numeric_coerce float_of_string
                  (str_replace_cell "," "." <$> ((λ r, cell r c') <$> l)))
  = mkDataFrame (with_column (columns df) c)
      ((λ r, <[c := normalize (cell r c')]> (f r)) <$> l).
Proof.
  intros H. unfold setitem, to_numeric_coerce. rewrite H.
  f_equal. clear H.
  induction l as [|r l IH]; [reflexivity|].
  rewrite !fmap_cons. cbn [zip_with]. by rewrite IH.
Qed.

Lemma process_coordinates_run (df : DataFrame) :
  str_column df "lat_str" → str_column df "lng_str" →
  process_coordinates float_of_string df =
    (Return (mkDataFrame
               (with_column (with_column (columns df) "latitude") "longitude")
               (with_coordinates <$> List.filter both_parsed (rows df))),
     mkDataFrame
       (with_column (with_column (columns df) "latitude") "longitude")
       (with_coordinates <$> rows df)).
Proof.
  intros [Hc1 Hs1] [Hc2 Hs2].
  unfold process_coordinates, bind, get_column, lift, set_column, getitem.
  rewrite Hc1. unfold Series_str_replace. rewrite Hs1.
  rewrite (setitem_normalized df "latitude" "lat_str" id (rows df))
    by (by rewrite list_fmap_id).
  set (df1 := mkDataFrame _ _).
  assert (H1 : has_column df1 "lng_str" = true).
  { apply bool_decide_eq_true, elem_of_with_column. left.
    by apply bool_decide_eq_true in Hc2. }
  assert (Hcol : (λ r, cell r "lng_str") <$> rows df1
                 = (λ r, cell r "lng_str") <$> rows df).
  { subst df1. cbn [rows]. rewrite <- list_fmap_compose.
    apply list_fmap_ext. intros _ r _. cbn. by apply cell_insert_ne. }
  rewrite H1, Hcol, Hs2.
  rewrite (setitem_normalized df1 "longitude" "lng_str"
             (λ r, <["latitude" := normalize (cell r "lat_str")]> (id r)) (rows df))
    by done.
  change (λ r, <["longitude" := normalize (cell r "lng_str")]>
                 (<["latitude" := normalize (cell r "lat_str")]> (id r)))
    with with_coordinates.
  cbn [columns]. f_equal.
  unfold dropna, has_column. cbn [columns rows List.filter].
  rewrite !bool_decide_eq_true_2.
  - cbn [negb]. f_equal. f_equal. rewrite filter_fmap. f_equal.
    apply filter_ext. intros r. cbn [forallb]. rewrite andb_true_r.
    unfold both_parsed, with_coordinates.
    rewrite cell_insert_eq, cell_insert_ne, cell_insert_eq; done.
  - apply elem_of_with_column. by right.
  - apply elem_of_with_column. left. apply elem_of_with_column. by right.
Qed.

Lemma process_coordinates_inv (df out df' : DataFrame) :
  process_coordinates float_of_string df = (Return out, df') →
  str_column df "lat_str" ∧ str_column df "lng_str".
Proof.
  unfold process_coordinates, bind, get_column, lift, set_column, getitem,
    str_column, Series_str_replace.
  intros H.
  destruct (has_column df "lat_str") eqn:Hc1; [|discriminate].
  destruct (existsb is_num ((λ r, cell r "lat_str") <$> rows df) && _) eqn:Hs1;
    [discriminate|].
  rewrite (setitem_normalized df "latitude" "lat_str" id (rows df)) in H
    by (by rewrite list_fmap_id).
  set (df1 := mkDataFrame _ _) in H.
  assert (Hcol : (λ r, cell r "lng_str") <$> rows df1
                 = (λ r, cell r "lng_str") <$> rows df).
  { subst df1. cbn [rows]. rewrite <- list_fmap_compose.
    apply list_fmap_ext. intros _ r _. cbn. by apply cell_insert_ne. }
  assert (H1 : has_column df1 "lng_str" = has_column df "lng_str").
  { apply eq_bool_prop_intro. unfold has_column. rewrite !bool_decide_spec.
    subst df1. cbn [columns]. rewrite elem_of_with_column. split; [|tauto].
    by intros [?|?]. }
  rewrite H1, Hcol in H.
  destruct (has_column df "lng_str") eqn:Hc2; [|discriminate].
  destruct (existsb is_num ((λ r, cell r "lng_str") <$> rows df) && _) eqn:Hs2;
    [discriminate|].
  done.
Qed.

Lemma unparsable_null v : unparsable v → isna (normalize v) = true.
Proof.
  unfold unparsable, normalize. destruct v as [f|x|]; cbn; intros H; try done.
  by rewrite (H x eq_refl).
Qed.

Lemma notna_normalize v :
  notna (normalize v) = true →
  ∃ x f, v = VStr x ∧ float_of_string (replace_char "," "." x) = Some f ∧
         normalize v = VNum f ∧ is_nan f = false.
Proof.
  unfold notna, normalize. destruct v as [f|x|]; cbn; try done.
  destruct (float_of_string _) as [f|] eqn:E; cbn; [|done].
  intros H%negb_true_iff. by exists x, f.
Qed.

Lemma cell_with_coordinates_raw r c :
  c ≠ "latitude" → c ≠ "longitude" → cell (with_coordinates r) c = cell r c.
Proof.
  intros H1 H2. unfold with_coordinates. by rewrite !cell_insert_ne.
Qed.

Lemma both_parsed_with_coordinates r r' :
  with_coordinates r = with_coordinates r' → both_parsed r = both_parsed r'.
Proof.
  intros H. unfold both_parsed.
  rewrite <- (cell_with_coordinates_raw r "lat_str"),
          <- (cell_with_coordinates_raw r "lng_str") by done.
  rewrite H. by rewrite !cell_with_coordinates_raw.
Qed.

Lemma List_filter_sublist {A} (p : A → bool) (l : list A) :
  List.filter p l `sublist_of` l.
Proof.
  induction l as [|a l IH]; [constructor|].
  cbn. destruct (p a); by constructor.
Qed.

(** C5.  Whenever the coordinate normalizer returns, every row of its output
    has a numeric, non-null latitude and a numeric, non-null longitude:
    the output is, in order, the input rows whose two raw coordinate strings
    both parse, each with the parsed numbers assigned; the numbers are the
    raw strings with the comma replaced by a period, parsed as floats; and a
    row with an unparsable coordinate gets a null there and is absent from
    the output. *)
Theorem process_coordinates_no_one_sided_nulls (df out df' : DataFrame) :
  process_coordinates float_of_string df = (Return out, df') →
  rows out = with_coordinates <$> List.filter both_parsed (rows df) ∧
  (∀ r, r ∈ rows out →
     ∃ r0 x y lat lon,
       r0 ∈ rows df ∧ r = with_coordinates r0 ∧
       cell r0 "lat_str" = VStr x ∧ cell r0 "lng_str" = VStr y ∧
       float_of_string (replace_char "," "." x) = Some lat ∧
       float_of_string (replace_char "," "." y) = Some lon ∧
       cell r "latitude" = VNum lat ∧ is_nan lat = false ∧
       cell r "longitude" = VNum lon ∧ is_nan lon = false) ∧
  (∀ r0, r0 ∈ rows df →
     (unparsable (cell r0 "lat_str") →
        isna (cell (with_coordinates r0) "latitude") = true ∧
        with_coordinates r0 ∉ rows out) ∧
     (unparsable (cell r0 "lng_str") →
        isna (cell (with_coordinates r0) "longitude") = true ∧
        with_coordinates r0 ∉ rows out)).
Proof.
  intros H. destruct (process_coordinates_inv _ _ _ H) as [S1 S2].
  rewrite process_coordinates_run in H by done.
  injection H as <- <-. cbn [rows].
  assert (Hlat : ∀ r, cell (with_coordinates r) "latitude" = normalize (cell r "lat_str")).
  { intros r. unfold with_coordinates. by rewrite cell_insert_ne, cell_insert_eq. }
  assert (Hlon : ∀ r, cell (with_coordinates r) "longitude" = normalize (cell r "lng_str")).
  { intros r. unfold with_coordinates. by rewrite cell_insert_eq. }
  split; [done|]. split.
  - intros r (r0 & -> & Hr0)%list_elem_of_fmap.
    apply list_elem_of_In, filter_In in Hr0 as [Hin Hp].
    apply andb_true_iff in Hp as [P1 P2].
    apply notna_normalize in P1 as (x & lat & Hx & Fx & Nx & NaNx).
    apply notna_normalize in P2 as (y & lon & Hy & Fy & Ny & NaNy).
    exists r0, x, y, lat, lon. rewrite Hlat, Hlon.
    apply list_elem_of_In in Hin. done.
  - intros r0 Hr0. rewrite Hlat, Hlon.
    split; intros U%unparsable_null; (split; [done|]);
      intros (r1 & E & Hr1)%list_elem_of_fmap;
      apply list_elem_of_In, filter_In in Hr1 as [_ Hp];
      rewrite <- (both_parsed_with_coordinates _ _ E) in Hp;
      unfold both_parsed, notna in Hp; rewrite U in Hp;
      cbn in Hp; rewrite ?andb_false_r in Hp; discriminate.
Qed.

(** C6, as amended.  The normalizer returns without raising exactly on the
    record sets whose [lat_str] and [lng_str] columns exist and are accepted
    by the string accessor.  On such a record set it assigns the [latitude]
    and [longitude] columns on the record set it was given, whose rows
    otherwise stay as they were and where they were; what it returns holds,
    in the same relative order, the rows of that updated set with both
    coordinates non-null (possibly none). *)
Theorem process_coordinates_total_order_preserving (df : DataFrame) :
  ((∃ out df', process_coordinates float_of_string df = (Return out, df')) →
   str_column df "lat_str" ∧ str_column df "lng_str") ∧
  (str_column df "lat_str" → str_column df "lng_str" →
   ∃ out df',
    process_coordinates float_of_string df = (Return out, df') ∧
    columns df' = with_column (with_column (columns df) "latitude") "longitude" ∧
    rows df' = with_coordinates <$> rows df ∧
    (∀ i r c, rows df !! i = Some r → c ≠ "latitude" → c ≠ "longitude" →
       ∃ r', rows df' !! i = Some r' ∧ r' !! c = r !! c) ∧
    columns out = columns df' ∧
    rows out =
      List.filter (λ r, notna (cell r "latitude") && notna (cell r "longitude"))
        (rows df') ∧
    rows out `sublist_of` rows df').
Proof.
  split; [intros (out & df' & H); by eapply process_coordinates_inv|].
  intros S1 S2. eexists _, _. split; [by apply process_coordinates_run|].
  cbn [columns rows]. split; [done|]. split; [done|]. split; [|split; [done|]].
  - intros i r c Hi N1 N2. exists (with_coordinates r).
    rewrite list_lookup_fmap, Hi. split; [done|].
    unfold with_coordinates. by rewrite !lookup_insert_ne.
  - assert (E : with_coordinates <$> List.filter both_parsed (rows df)
              = List.filter (λ r, notna (cell r "latitude") && notna (cell r "longitude"))
                  (with_coordinates <$> rows df)).
    { rewrite filter_fmap. f_equal. apply filter_ext. intros r.
      unfold both_parsed, with_coordinates.
      by rewrite cell_insert_eq, cell_insert_ne, cell_insert_eq. }
    split; [done|]. rewrite E. apply List_filter_sublist.
Qed.

End NormalizerProperties.

(** ** The remote fetcher *)

Lemma after_refl w : after [] w w.
Proof. done. Qed.

Lemma after_emit e evs w w' : after evs w w' → after (e :: evs) w (emit e w').
Proof. intros (F & S & T). unfold after, emit. cbn. by rewrite T. Qed.

Lemma after_trans evs1 evs2 w1 w2 w3 :
  after evs1 w1 w2 → after evs2 w2 w3 → after (evs2 ++ evs1) w1 w3.
Proof.
  intros (F1 & S1 & T1) (F2 & S2 & T2). unfold after.
  rewrite F2, S2, T2, T1, F1, S1. by rewrite app_assoc.
Qed.

Lemma attempts_emit e w :
  attempts (emit e w) = if is_request e then S (attempts w) else attempts w.
Proof. unfold attempts, emit. cbn. by destruct (is_request e). Qed.

Lemma fetch_aneel_body_network_error w reason :
  server w (attempts w) = ConnectionFailed reason →
  fetch_aneel_body w =
    (Return DataFrame_empty,
     emit (EvError ("Erro na API ANEEL: " +:+ reason)) (emit (EvRequest aneel_request) w)).
Proof.
  intros H. unfold fetch_aneel_body, try_except, bind, requests_get. by rewrite H.
Qed.

Lemma fetch_aneel_body_payload w code d :
  server w (attempts w) = Responded code (Payload d) →
  is_http_error code = false →
  fetch_aneel_body w = (Return d, emit (EvRequest aneel_request) w).
Proof.
  intros H Hc.
  unfold fetch_aneel_body, try_except, bind, requests_get, lift, raise_for_status.
  rewrite H. cbn [status_code_of]. by rewrite Hc.
Qed.

(** One call of the body sends one request, the fixed one, and writes no
    file. *)
Lemma fetch_aneel_body_effects w :
  ∃ evs, after (evs ++ [EvRequest aneel_request]) w (fetch_aneel_body w).2 ∧
         Forall (λ e, is_request e = false ∧ fetcher_event e) evs.
Proof.
  unfold fetch_aneel_body, try_except, bind, requests_get, lift, raise_for_status,
    records_frame.
  destruct (server w (attempts w)) as [reason|code b]; cbn.
  - by exists [EvError ("Erro na API ANEEL: " +:+ reason)]; repeat constructor.
  - destruct (is_http_error code); cbn.
    + by exists [EvError "Erro na API ANEEL: HTTPError"]; repeat constructor.
    + destruct b; cbn;
        [by exists [EvError "Erro na API ANEEL: JSONDecodeError"]; repeat constructor
        |by exists []; repeat constructor..].
Qed.

Lemma retry_from_Return {A} wait (f : St World A) n left w a w' :
  f w = (Return a, w') → retry_from wait f n left w = (Return a, w').
Proof. intros H. destruct left; cbn; by rewrite H. Qed.

(** Whatever the fetcher does, it writes no file and every request it
    sends is the fixed one. *)
Lemma retry_from_fetch_effects n left w :
  ∃ evs, after evs w (retry_from (wait_exponential 1 2 10) fetch_aneel_body n left w).2 ∧
         Forall fetcher_event evs.
Proof.
  revert n w. induction left as [|left IH]; intros n w; cbn [retry_from];
    destruct (fetch_aneel_body_effects w) as (evs & Hevs & Hno);
    (assert (Hall : Forall fetcher_event (evs ++ [EvRequest aneel_request]));
     [apply Forall_app; split; [|by repeat constructor];
      eapply Forall_impl; [exact Hno|]; by intros e [_ ?]|]);
    destruct (fetch_aneel_body w) as [[a|e] w1] eqn:E; cbn [snd] in *;
    try by exists (evs ++ [EvRequest aneel_request]).
  destruct (IH (S n) (emit (EvSleep (wait_exponential 1 2 10 n)) w1))
    as (evs' & Hevs' & Hall').
  exists (evs' ++ EvSleep (wait_exponential 1 2 10 n) :: evs ++ [EvRequest aneel_request]).
  split.
  - eapply (after_trans _ _ w _ _); [|exact Hevs'].
    by apply after_emit.
  - apply Forall_app. split; [done|]. by constructor.
Qed.

Lemma fetch_aneel_effects w :
  ∃ evs, after evs w (fetch_aneel w).2 ∧ Forall fetcher_event evs.
Proof. apply retry_from_fetch_effects. Qed.

Lemma fetch_aneel_body_sends w :
  ∃ evs, trace (fetch_aneel_body w).2 = evs ++ EvRequest aneel_request :: trace w.
Proof.
  destruct (fetch_aneel_body_effects w) as (evs & (_ & _ & T) & _).
  exists evs. by rewrite T, <- app_assoc.
Qed.

Lemma retry_from_fetch_sends n left w :
  ∃ evs, trace (retry_from (wait_exponential 1 2 10) fetch_aneel_body n left w).2
         = evs ++ EvRequest aneel_request :: trace w.
Proof.
  destruct (fetch_aneel_body_sends w) as (evs & T).
  destruct left as [|left']; cbn [retry_from];
    destruct (fetch_aneel_body w) as [[a|e] w1] eqn:E; cbn [snd] in *;
    try by exists evs.
  destruct (retry_from_fetch_effects (S n) left'
              (emit (EvSleep (wait_exponential 1 2 10 n)) w1)) as (evs' & (_ & _ & T') & _).
  rewrite T'. cbn [emit trace]. rewrite T.
  exists (evs' ++ EvSleep (wait_exponential 1 2 10 n) :: evs).
  by rewrite <- !app_assoc.
Qed.

Lemma fetch_aneel_sends w :
  ∃ evs, trace (fetch_aneel w).2 = evs ++ EvRequest aneel_request :: trace w.
Proof. apply retry_from_fetch_sends. Qed.

Lemma fetch_aneel_network_error w reason :
  server w (attempts w) = ConnectionFailed reason →
  fetch_aneel w =
    (Return DataFrame_empty,
     emit (EvError ("Erro na API ANEEL: " +:+ reason)) (emit (EvRequest aneel_request) w)).
Proof.
  intros H. unfold fetch_aneel, retry. apply retry_from_Return.
  by apply fetch_aneel_body_network_error.
Qed.

(** The retry loop does run for an exception the function lets through: a
    body that is no JSON object is asked for three times, and the third
    failure ends in a [RetryError]. *)
Example fetch_aneel_retries_what_it_sees :
  (fetch_aneel world_malformed).1 = Raise (Exn RetryError "RetryError") ∧
  attempts (fetch_aneel world_malformed).2 = 3.
Proof. split; vm_compute; reflexivity. Qed.

(** C1.  What the fetcher does when the first request fails at the network
    layer: the exception is caught inside the retried function, so the
    retry loop sees a normal return; one request is sent, the error is
    shown, and the empty record set is returned, whatever later requests
    would have met. *)
Theorem fetch_aneel_network_error_single_attempt (w : World) (reason : string) :
  server w (attempts w) = ConnectionFailed reason →
  ∃ w', fetch_aneel w = (Return DataFrame_empty, w') ∧
        attempts w' = S (attempts w) ∧
        errors w' = ("Erro na API ANEEL: " +:+ reason) :: errors w ∧
        files w' = files w.
Proof.
  intros H. eexists. split; [by apply fetch_aneel_network_error|].
  by rewrite !attempts_emit.
Qed.

(** ** The registry loader *)

Lemma cache_probe_after w :
  ∃ evs, after evs w (cache_probe w) ∧
         Forall (λ e, is_request e = false ∧ is_to_parquet e = false) evs.
Proof.
  unfold cache_probe. destruct (files w !! Config.ANEEL_CACHE).
  - eexists [_; _]. split; [done|]. by repeat constructor.
  - exists []. split; [done|constructor].
Qed.

Lemma filter_none {A} (p : A → bool) (l : list A) :
  Forall (λ a, p a = false) l → List.filter p l = [].
Proof.
  induction 1 as [|a l Ha _ IH]; [done|]. cbn [List.filter]. by rewrite Ha.
Qed.


Lemma after_snapshot_writes evs w w' :
  after evs w w' → Forall (λ e, is_to_parquet e = false) evs →
  snapshot_writes w' = snapshot_writes w.
Proof.
  intros (_ & _ & T) H. unfold snapshot_writes.
  by rewrite T, List.filter_app, length_app, filter_none.
Qed.

Lemma fetcher_event_no_write e : fetcher_event e → is_to_parquet e = false.
Proof. by destruct e. Qed.

(** pyarrow converts exactly the frames with one type per column. *)
Lemma arrow_error_None df : arrow_error df = None ↔ one_type_per_column df.
Proof.
  unfold arrow_error, one_type_per_column.
  induction (columns df) as [|c cs IH]; cbn [List.find].
  - split; [constructor|done].
  - destruct (mixed (column_cells df c)) eqn:E.
    + split; [done|]. intros H. inversion H; congruence.
    + destruct (List.find _ cs); split; intros H; try done.
      * inversion H as [|?? _ H']. by apply IH in H'.
      * constructor; [done|]. by apply IH.
Qed.

Lemma arrow_error_Some df e : arrow_error df = Some e → exn_kind e = ArrowException.
Proof.
  unfold arrow_error. destruct (List.find _ _); [|done]. by intros [= <-].
Qed.

Lemma existsb_fmap_filter {A B} (f : B → bool) (g : A → B) (p : A → bool) l :
  existsb f (g <$> l) = false → existsb f (g <$> List.filter p l) = false.
Proof.
  induction l as [|a l IH]; [done|]. cbn. intros [Ha Hl]%orb_false_iff.
  destruct (p a); cbn; [rewrite Ha|]; by apply IH.
Qed.

(** Dropping rows keeps one type per column. *)
Lemma one_type_per_column_filter cols (p : gmap string value → bool) l :
  one_type_per_column (mkDataFrame cols l) →
  one_type_per_column (mkDataFrame cols (List.filter p l)).
Proof.
  unfold one_type_per_column, column_cells, mixed. cbn [columns rows].
  intros H. eapply Forall_impl; [exact H|]. cbn beta.
  intros c [Hc|Hc]%andb_false_iff; apply andb_false_iff;
    [left|right]; by apply existsb_fmap_filter.
Qed.


Lemma to_parquet_Return df path w :
  one_type_per_column df →
  to_parquet df path w =
    (Return tt,
     mkWorld (<[path := Parquet df]> (files w)) (server w) (EvToParquet path :: trace w)).
Proof. intros H%arrow_error_None. unfold to_parquet. by rewrite H. Qed.


Section LoaderProperties.

Variable float_of_string : string → option float.

Local Abbreviation rebuild_aneel := (rebuild_aneel float_of_string).

Lemma load_aneel_data_cached w d :
  files w !! Config.ANEEL_CACHE = Some (Parquet d) →
  load_aneel_data float_of_string w = (Return d, emit (EvReadParquet Config.ANEEL_CACHE) w).
Proof.
  intros H. unfold load_aneel_data, bind, exists_, try_except, read_parquet, ret.
  rewrite H, bool_decide_eq_true_2 by done. cbv beta. by rewrite H.
Qed.

Lemma load_aneel_data_miss w :
  cache_miss w →
  load_aneel_data float_of_string w = rebuild_aneel (cache_probe w).
Proof.
  unfold cache_miss, load_aneel_data, rebuild_aneel.
  intros M. unfold bind at 1.
  match goal with |- (let (_, _) := ?m w in _) = _ => set (probe := m w) end.
  assert (P : probe = (Return None, cache_probe w)).
  { subst probe. unfold cache_probe, bind, exists_, try_except, read_parquet, ret, st_warning.
    destruct (files w !! Config.ANEEL_CACHE) as [[d|d|]|] eqn:E; try done;
      rewrite bool_decide_eq_true_2 by done; cbv beta; by rewrite E. }
  rewrite P. unfold cache_probe. done.
Qed.


Lemma rebuild_aneel_nonempty w df w2 out df' :
  fetch_aneel w = (Return df, w2) → empty df = false →
  process_coordinates float_of_string df = (Return out, df') →
  one_type_per_column out →
  rebuild_aneel w =
    (Return out,
     mkWorld (<[Config.ANEEL_CACHE := Parquet out]> (files w2)) (server w2)
             (EvToParquet Config.ANEEL_CACHE :: trace w2)).
Proof.
  intros F E P T. unfold rebuild_aneel, bind. rewrite F, E. cbn [negb].
  unfold call_process_coordinates, lift, ret. rewrite P. cbn [fst].
  by rewrite to_parquet_Return.
Qed.




Lemma fetch_after_probe_unchanged w :
  files (fetch_aneel (cache_probe w)).2 = files w ∧
  snapshot_writes (fetch_aneel (cache_probe w)).2 = snapshot_writes w.
Proof.
  destruct (fetch_aneel_effects (cache_probe w)) as (evs & A & Hall).
  destruct (cache_probe_after w) as (evs0 & A0 & Hall0).
  split; [by rewrite (proj1 A), (proj1 A0)|].
  rewrite (after_snapshot_writes _ _ _ A), (after_snapshot_writes _ _ _ A0); [done| |].
  - eapply Forall_impl; [exact Hall0|]. by intros e [_ ?].
  - eapply Forall_impl; [exact Hall|]. apply fetcher_event_no_write.
Qed.




End LoaderProperties.

(** ** The franchise and plant loaders *)

Lemma dropna_coordinates df :
  has_column df "latitude" = true → has_column df "longitude" = true →
  dropna df ["latitude"; "longitude"] =
    Return (mkDataFrame (columns df) (List.filter has_coordinates (rows df))).
Proof.
  intros H1 H2. unfold dropna. cbn [List.filter]. rewrite H1, H2. cbn [negb].
  do 2 f_equal. apply filter_ext. intros r. cbn [forallb].
  unfold has_coordinates. by rewrite andb_true_r.
Qed.

Lemma not_is_Some_None {A} : ¬ is_Some (@None A).
Proof. by intros [? ?]. Qed.

Lemma load_franchise_data_cached w d :
  files w !! Config.FRANCHISE_DATA = Some (Parquet d) →
  load_franchise_data w = (Return d, emit (EvReadParquet Config.FRANCHISE_DATA) w).
Proof.
  intros H. unfold load_franchise_data, bind, exists_, try_except, read_parquet, ret.
  rewrite H, bool_decide_eq_true_2 by done. cbv beta. by rewrite H.
Qed.

Lemma load_franchise_data_from_source w src :
  files w !! Config.FRANCHISE_DATA = None →
  files w !! Config.FRANCHISE_INPUT = Some (Csv src) →
  has_column src "latitude" = true → has_column src "longitude" = true →
  one_type_per_column src →
  load_franchise_data w =
    (Return (mkDataFrame (columns src) (List.filter has_coordinates (rows src))),
     mkWorld
       (<[Config.FRANCHISE_DATA :=
            Parquet (mkDataFrame (columns src) (List.filter has_coordinates (rows src)))]>
          (files w))
       (server w)
       (EvToParquet Config.FRANCHISE_DATA :: EvReadCsv Config.FRANCHISE_INPUT :: trace w)).
Proof.
  intros HD HI H1 H2 T.
  unfold load_franchise_data, bind, exists_, try_except, read_csv, lift, ret.
  rewrite HD, bool_decide_eq_false_2 by apply not_is_Some_None. cbv beta.
  rewrite HI, bool_decide_eq_true_2 by done. cbv beta. rewrite HI.
  rewrite dropna_coordinates by done.
  rewrite to_parquet_Return; [done|].
  destruct src as [cols l]. by apply one_type_per_column_filter.
Qed.

Lemma load_franchise_data_absent w :
  files w !! Config.FRANCHISE_DATA = None →
  files w !! Config.FRANCHISE_INPUT = None →
  load_franchise_data w = (Return DataFrame_empty, w).
Proof.
  intros HD HI. unfold load_franchise_data, bind, exists_, ret.
  rewrite HD, bool_decide_eq_false_2 by apply not_is_Some_None. cbv beta.
  by rewrite HI, bool_decide_eq_false_2 by apply not_is_Some_None.
Qed.

Lemma load_usina_data_absent w :
  files w !! Config.USINA_INPUT = None →
  load_usina_data w =
    (Return DataFrame_empty, emit (EvError "Arquivo de usinas não encontrado.") w).
Proof.
  intros H. unfold load_usina_data, bind, exists_, ret, st_error.
  by rewrite H, bool_decide_eq_false_2 by apply not_is_Some_None.
Qed.

Lemma filter_drop_one {A} (p : A → bool) (pre post : list A) (bad : A) :
  p bad = false → Forall (λ a, p a = true) (pre ++ post) →
  List.filter p (pre ++ bad :: post) = pre ++ post.
Proof.
  intros Hb [Hpre Hpost]%Forall_app.
  rewrite List.filter_app. cbn [List.filter]. rewrite Hb.
  assert (All : ∀ l, Forall (λ a, p a = true) l → List.filter p l = l).
  { induction 1 as [|a l Ha _ IH]; [done|]. cbn [List.filter]. by rewrite Ha, IH. }
  by rewrite !All.
Qed.

(** C3.  The franchise loader with no snapshot and a source file of five
    rows, one of them without a longitude and the four others with both
    coordinates: the first call returns exactly those four rows, in order,
    and stores them as the snapshot; a second call returns the same four
    rows from the snapshot, reading no delimited file and changing no
    file.  The source is a frame as [read_csv] gives it, with one type per
    column. *)
Theorem load_franchise_data_five_rows (w : World) (src : DataFrame)
    (pre post : list (gmap string value)) (bad : gmap string value) :
  files w !! Config.FRANCHISE_DATA = None →
  files w !! Config.FRANCHISE_INPUT = Some (Csv src) →
  one_type_per_column src →
  has_column src "latitude" = true → has_column src "longitude" = true →
  rows src = pre ++ bad :: post → length (rows src) = 5 →
  isna (cell bad "longitude") = true →
  Forall (λ r, has_coordinates r = true) (pre ++ post) →
  ∃ out w1 w2,
    load_franchise_data w = (Return out, w1) ∧
    columns out = columns src ∧ rows out = pre ++ post ∧ length (rows out) = 4 ∧
    files w1 !! Config.FRANCHISE_DATA = Some (Parquet out) ∧
    load_franchise_data w1 = (Return out, w2) ∧
    csv_reads w2 = csv_reads w1 ∧ files w2 = files w1.
Proof.
  intros HD HI T H1 H2 Hrows Hlen Hbad Hgood.
  eexists _, _, _. split; [by apply load_franchise_data_from_source|].
  cbn [columns rows files]. rewrite Hrows.
  rewrite filter_drop_one; [|unfold has_coordinates, notna; by rewrite Hbad, andb_false_r|done].
  split; [done|]. split; [done|]. split.
  { rewrite Hrows, !length_app in Hlen. cbn [length] in Hlen.
    rewrite length_app. lia. }
  split; [by rewrite lookup_insert_eq|].
  split; [apply load_franchise_data_cached; cbn [files]; by rewrite lookup_insert_eq|].
  done.
Qed.

(** C8.  What the two loaders do when their source file is absent.  The
    plant loader shows the message [Arquivo de usinas não encontrado.] and
    returns the empty record set.  The franchise loader, with neither
    snapshot nor source file, returns the empty record set and leaves the
    world as it was: it shows no message.  Neither raises. *)
Theorem missing_source_file_loaders :
  (∀ w, files w !! Config.USINA_INPUT = None →
     load_usina_data w =
       (Return DataFrame_empty, emit (EvError "Arquivo de usinas não encontrado.") w)) ∧
  (∀ w, files w !! Config.FRANCHISE_DATA = None →
        files w !! Config.FRANCHISE_INPUT = None →
     load_franchise_data w = (Return DataFrame_empty, w) ∧
     errors (load_franchise_data w).2 = errors w).
Proof.
  split.
  - apply load_usina_data_absent.
  - intros w HD HI. by rewrite load_franchise_data_absent.
Qed.

(** ** The query descriptor *)

(** C9, as amended.  Every request the fetcher sends is the same HTTP GET to
    the fixed endpoint, and it sends at least one; its one parameter, [sql],
    is the fixed query string.  The WHERE clause of that query has exactly
    two conditions: the state code [SigUF] equals ['PA'], and the north
    coordinate [NumCoordNEmpreendimento], selected as [lat_str], is not
    null.  The east coordinate, selected as [lng_str], is selected but not
    tested.  The query ends with LIMIT 80000. *)
Theorem aneel_query_descriptor :
  (∀ w, ∃ evs,
     after evs w (fetch_aneel w).2 ∧ Forall fetcher_event evs ∧
     EvRequest aneel_request ∈ evs) ∧
  method aneel_request = "GET" ∧
  url aneel_request = Config.ANEEL_URL ∧
  params aneel_request = [("sql", Config.ANEEL_QUERY)] ∧
  select_list Config.ANEEL_QUERY =
    [quoted "NomMunicipio" +:+ ","; quoted "SigUF" +:+ ","; quoted "NomRegiao" +:+ ",";
     quoted "NumCoordNEmpreendimento"; "AS"; "lat_str,";
     quoted "NumCoordEEmpreendimento"; "AS"; "lng_str"] ∧
  where_conditions Config.ANEEL_QUERY =
    [[quoted "SigUF"; "="; "'PA'"];
     [quoted "NumCoordNEmpreendimento"; "IS"; "NOT"; "NULL"]] ∧
  tests_equal Config.ANEEL_QUERY "SigUF" "'PA'" ∧
  tests_not_null Config.ANEEL_QUERY "NumCoordNEmpreendimento" ∧
  limit_of Config.ANEEL_QUERY = ["80000"].
Proof.
  split.
  { intros w. destruct (fetch_aneel_effects w) as (evs & A & Hall).
    exists evs. split; [done|]. split; [done|].
    destruct (fetch_aneel_sends w) as (evs' & T).
    destruct A as (_ & _ & T'). rewrite T' in T.
    assert (E : evs = evs' ++ [EvRequest aneel_request]).
    { apply (app_inv_tail (trace w)). by rewrite T, <- app_assoc. }
    rewrite E. apply elem_of_app. right. by apply list_elem_of_singleton. }
  assert (W : where_conditions Config.ANEEL_QUERY =
    [[quoted "SigUF"; "="; "'PA'"];
     [quoted "NumCoordNEmpreendimento"; "IS"; "NOT"; "NULL"]])
    by (vm_compute; reflexivity).
  repeat split; try (vm_compute; reflexivity).
  - unfold tests_equal. rewrite W. by left.
  - unfold tests_not_null. rewrite W. right. by left.
Qed.

(** C9, the claim as worded fails: the query does not test the east
    coordinate, selected as [lng_str], for null. *)
Lemma aneel_query_longitude_not_tested :
  ¬ filters_region_and_coordinates Config.ANEEL_QUERY.
Proof.
  intros (_ & _ & H). unfold tests_not_null in H.
  apply list_elem_of_In in H. vm_compute in H.
  destruct H as [H|[H|[]]]; discriminate H.
Qed.

(** * Instances *)

(** C1 at the endpoint that fails twice and then answers: one request, the
    empty record set. *)
Lemma fetch_aneel_flaky :
  (fetch_aneel world_flaky).1 = Return DataFrame_empty ∧
  attempts (fetch_aneel world_flaky).2 = 1.
Proof.
  destruct (fetch_aneel_network_error_single_attempt world_flaky "timed out" eq_refl)
    as (w' & E & A & _).
  rewrite E. split; [reflexivity|exact A].
Defined.

(** C4 on the four sample plants. *)
Lemma filter_usinas_by_region_sample :
  ∃ out, filter_usinas_by_region sample_plants = Return out ∧
         rows out = rows sample_plants_kept.
Proof.
  assert (N : numeric_coordinates sample_plants).
  { split; [reflexivity|]. split; [reflexivity|].
    intros r Hr. cbn [rows sample_plants] in Hr.
    rewrite !elem_of_cons, elem_of_nil in Hr.
    destruct Hr as [->|[->|[->|[->|[]]]]]; split; reflexivity. }
  destruct (filter_usinas_by_region_boxes sample_plants N) as (out & H & _ & R & _).
  exists out. split; [exact H|]. rewrite R. vm_compute. reflexivity.
Defined.

(** C7 on the four sample plants. *)
Lemma filter_usinas_by_region_twice :
  filter_usinas_by_region sample_plants = Return sample_plants_kept ∧
  filter_usinas_by_region sample_plants_kept = Return sample_plants_kept.
Proof.
  assert (H : filter_usinas_by_region sample_plants = Return sample_plants_kept)
    by (vm_compute; reflexivity).
  split; [exact H|].
  exact (filter_usinas_by_region_idempotent sample_plants sample_plants_kept H).
Defined.

(** C5 on the three sample records. *)
Lemma process_coordinates_sample :
  process_coordinates sample_float_of_string sample_records
    = (Return sample_normalized, sample_records_after) ∧
  rows sample_normalized =
    with_coordinates sample_float_of_string
      <$> List.filter (both_parsed sample_float_of_string) (rows sample_records).
Proof.
  assert (H : process_coordinates sample_float_of_string sample_records
              = (Return sample_normalized, sample_records_after))
    by (vm_compute; reflexivity).
  split; [exact H|].
  exact (proj1 (process_coordinates_no_one_sided_nulls sample_float_of_string
                  sample_records sample_normalized sample_records_after H)).
Defined.

(** C6, as amended, on the three sample records. *)
Lemma process_coordinates_sample_order :
  ∃ out df',
    process_coordinates sample_float_of_string sample_records = (Return out, df') ∧
    rows out `sublist_of` rows df'.
Proof.
  assert (S1 : str_column sample_records "lat_str") by (split; reflexivity).
  assert (S2 : str_column sample_records "lng_str") by (split; reflexivity).
  destruct (proj2 (process_coordinates_total_order_preserving sample_float_of_string
                     sample_records) S1 S2)
    as (out & df' & H & _ & _ & _ & _ & _ & Sub).
  exists out, df'. split; [exact H|exact Sub].
Defined.

(** C6, the claim as worded fails: on a record set without a [lat_str]
    column the normalizer raises, and on the sample records it returns
    having changed the record set it was given. *)
Lemma process_coordinates_not_pure_total :
  (process_coordinates sample_float_of_string sample_plants).1
    = Raise (Exn KeyError "lat_str") ∧
  (process_coordinates sample_float_of_string sample_records).2 ≠ sample_records.
Proof.
  split; [vm_compute; reflexivity|].
  intros H. apply (f_equal columns) in H. vm_compute in H. discriminate H.
Qed.





(** C3 on the five sample franchises. *)
Lemma load_franchise_data_sample :
  ∃ out w1 w2,
    load_franchise_data world_franchises = (Return out, w1) ∧
    length (rows out) = 4 ∧
    files w1 !! Config.FRANCHISE_DATA = Some (Parquet out) ∧
    load_franchise_data w1 = (Return out, w2) ∧
    csv_reads w2 = csv_reads w1.
Proof.
  destruct (load_franchise_data_five_rows world_franchises sample_franchises
              [located "f1" (VNum (-1.5)) (VNum (-48.25));
               located "f2" (VNum (-3.0)) (VNum (-48.25))]
              [located "f4" (VNum (-1.5)) (VNum (-3.0));
               located "f5" (VNum (-3.0)) (VNum (-1.5))]
              (located "f3" (VNum (-3.0)) (VNum nan)))
    as (out & w1 & w2 & L1 & _ & _ & Len & Snap & L2 & Reads & _).
  - reflexivity.
  - reflexivity.
  - apply arrow_error_None. vm_compute. reflexivity.
  - reflexivity.
  - reflexivity.
  - reflexivity.
  - reflexivity.
  - reflexivity.
  - repeat constructor.
  - exists out, w1, w2. repeat split; assumption.
Defined.

(** C8 on a world with no file at all. *)
Lemma missing_source_file_sample :
  ((load_usina_data world_down).1 = Return DataFrame_empty ∧
   errors (load_usina_data world_down).2 = ["Arquivo de usinas não encontrado."]) ∧
  ((load_franchise_data world_down).1 = Return DataFrame_empty ∧
   errors (load_franchise_data world_down).2 = []).
Proof.
  destruct missing_source_file_loaders as (T1 & T2).
  split.
  - rewrite (T1 world_down eq_refl). split; reflexivity.
  - destruct (T2 world_down eq_refl eq_refl) as (E & Er).
    rewrite Er, E. split; reflexivity.
Defined.

(** * Further properties *)

(** ** The order on floats *)

Lemma SFleb_trans x y z :
  SFleb x y = true → SFleb y z = true → SFleb x z = true.
Proof.
  unfold SFleb, SFcompare.
  destruct x as [sx|sx| |sx mx ex], y as [sy|sy| |sy my ey], z as [sz|sz| |sz mz ez];
    repeat match goal with s : bool |- _ => destruct s end;
    try reflexivity; try discriminate;
    fold (Pos.compare mx my); fold (Pos.compare my mz); fold (Pos.compare mx mz);
    destruct (Z.compare_spec ex ey), (Z.compare_spec ey ez), (Z.compare_spec ex ez);
    try reflexivity; try discriminate; try lia; subst;
    destruct (Pos.compare_spec mx my), (Pos.compare_spec my mz), (Pos.compare_spec mx mz);
    simpl; try reflexivity; try discriminate; try lia.
Qed.

Lemma leb_trans (x y z : float) :
  (x <=? y)%float = true → (y <=? z)%float = true → (x <=? z)%float = true.
Proof. rewrite !FloatAxioms.leb_spec. apply SFleb_trans. Qed.

Lemma leb_not_nan (x y : float) :
  (x <=? y)%float = true → is_nan x = false ∧ is_nan y = false.
Proof.
  unfold is_nan. rewrite FloatAxioms.leb_spec, !FloatAxioms.eqb_spec.
  unfold SFleb, SFeqb, SFcompare.
  destruct (Prim2SF x) as [sx|sx| |sx mx ex], (Prim2SF y) as [sy|sy| |sy my ey];
    repeat match goal with s : bool |- _ => destruct s end;
    try discriminate; intros _;
    rewrite ?Z.compare_refl;
    try fold (Pos.compare mx mx); try fold (Pos.compare my my);
    rewrite ?Pos.compare_refl; split; reflexivity.
Qed.

(** ** More on the regional filter *)

Lemma keep_has_coordinates r : keep r = true → has_coordinates r = true.
Proof.
  intros K. apply keep_retained in K. unfold retained in K.
  unfold has_coordinates, notna.
  destruct (cell r "latitude") as [lat| |]; try done.
  destruct (cell r "longitude") as [lon| |]; try done.
  cbn [isna].
  destruct K as [[[H1 _] [H2 _]]|[[H1 _] [H2 _]]];
    apply leb_not_nan in H1 as [_ ->]; apply leb_not_nan in H2 as [_ ->]; done.
Qed.

Lemma filter_implied {A} (p q : A → bool) (l : list A) :
  (∀ a, p a = true → q a = true) →
  List.filter q (List.filter p l) = List.filter p l ∧
  List.filter p (List.filter q l) = List.filter p l.
Proof.
  intros H. induction l as [|a l [IH1 IH2]]; [done|].
  cbn [List.filter]. destruct (p a) eqn:P.
  - rewrite (H a P). cbn [List.filter]. by rewrite (H a P), P, IH1, IH2.
  - rewrite IH1. destruct (q a); cbn [List.filter]; by rewrite ?P, IH2.
Qed.

Lemma comparable_mk cols (l : list (gmap string value)) c :
  comparable (mkDataFrame cols l) c ↔
  bool_decide (c ∈ cols) = true ∧ Forall (λ r, is_str (cell r c) = false) l.
Proof. done. Qed.

Lemma mapM_compare_raise op x (s : list value) :
  Exists (λ v, is_str v = true) s →
  mapM (λ v, compare op v x) s
    = Raise (Exn TypeError "not supported between instances of 'str' and 'float'").
Proof.
  induction s as [|v s IH]; intros H; [by apply Exists_nil in H|].
  cbn [mapM]. destruct v as [f|t|]; cbn [compare]; [|done|].
  - apply Exists_cons in H as [H|H]; [done|]. by rewrite IH.
  - apply Exists_cons in H as [H|H]; [done|]. by rewrite IH.
Qed.

(** X1.  Whatever record set the filter returns has the columns of its
    input and a sub-sequence of its rows, and every row it keeps has a
    non-null numeric latitude between -18 and 5 and a non-null numeric
    longitude between -75 and -34. *)
Theorem filter_usinas_by_region_within_bounds (df out : DataFrame) :
  filter_usinas_by_region df = Return out →
  columns out = columns df ∧ rows out `sublist_of` rows df ∧
  ∀ r, r ∈ rows out →
    ∃ lat lon,
      cell r "latitude" = VNum lat ∧ cell r "longitude" = VNum lon ∧
      in_interval (-18.0) 5.0 lat ∧ in_interval (-75.0) (-34.0) lon ∧
      is_nan lat = false ∧ is_nan lon = false.
Proof.
  intros H. destruct (filter_usinas_by_region_inv _ _ H) as [C1 C2].
  rewrite filter_usinas_by_region_Return in H by done. injection H as <-.
  cbn [columns rows]. split; [done|]. split; [apply List_filter_sublist|].
  intros r [_ K]%list_elem_of_In%filter_In.
  apply keep_retained in K. unfold retained in K.
  destruct (cell r "latitude") as [lat| |]; try done.
  destruct (cell r "longitude") as [lon| |]; try done.
  exists lat, lon. split; [done|]. split; [done|].
  assert (L1 : (-18.0 <=? -5.0)%float = true) by reflexivity.
  assert (L2 : (-5.0 <=? 5.0)%float = true) by reflexivity.
  assert (L3 : (-60.0 <=? -34.0)%float = true) by reflexivity.
  unfold in_North, in_Northeast, in_interval in *.
  destruct K as [[[A1 A2] [B1 B2]]|[[A1 A2] [B1 B2]]].
  - destruct (leb_not_nan _ _ A1) as [_ ?], (leb_not_nan _ _ B1) as [_ ?].
    repeat split; eauto using leb_trans.
  - destruct (leb_not_nan _ _ A1) as [_ ?], (leb_not_nan _ _ B1) as [_ ?].
    repeat split; eauto using leb_trans.
Qed.

(** X2.  The filter treats rows one by one: it returns on a record set
    whose rows are two lists, one after the other, exactly when it returns
    on each list alone (same columns), and what it keeps is what it keeps of
    the first followed by what it keeps of the second. *)
Theorem filter_usinas_by_region_app (cols : list string)
    (l1 l2 : list (gmap string value)) :
  (∀ o1 o2,
     filter_usinas_by_region (mkDataFrame cols l1) = Return o1 →
     filter_usinas_by_region (mkDataFrame cols l2) = Return o2 →
     filter_usinas_by_region (mkDataFrame cols (l1 ++ l2))
       = Return (mkDataFrame cols (rows o1 ++ rows o2))) ∧
  (∀ o,
     filter_usinas_by_region (mkDataFrame cols (l1 ++ l2)) = Return o →
     ∃ o1 o2,
       filter_usinas_by_region (mkDataFrame cols l1) = Return o1 ∧
       filter_usinas_by_region (mkDataFrame cols l2) = Return o2 ∧
       rows o = rows o1 ++ rows o2).
Proof.
  split.
  - intros o1 o2 H1 H2.
    destruct (filter_usinas_by_region_inv _ _ H1) as [[Ca Fa] [Cb Fb]].
    destruct (filter_usinas_by_region_inv _ _ H2) as [[_ Fa'] [_ Fb']].
    rewrite filter_usinas_by_region_Return in H1, H2 by done.
    injection H1 as <-. injection H2 as <-.
    rewrite filter_usinas_by_region_Return.
    + cbn [columns rows]. by rewrite List.filter_app.
    + split; [done|]. cbn [rows] in *. by apply Forall_app.
    + split; [done|]. cbn [rows] in *. by apply Forall_app.
  - intros o H.
    destruct (filter_usinas_by_region_inv _ _ H) as [[Ca Fa] [Cb Fb]].
    rewrite filter_usinas_by_region_Return in H by done. injection H as <-.
    cbn [rows] in Fa, Fb. apply Forall_app in Fa as [Fa1 Fa2], Fb as [Fb1 Fb2].
    eexists _, _.
    split; [by apply filter_usinas_by_region_Return|].
    split; [by apply filter_usinas_by_region_Return|].
    cbn [rows]. apply List.filter_app.
Qed.

(** X3.  When the filter raises.  Without a [latitude] column (so also on
    the empty record set [pd.DataFrame()]) it raises [KeyError] for
    [latitude]; with a comparable latitude column and no [longitude] column
    it raises [KeyError] for [longitude]; with a string in the latitude
    column it raises [TypeError]. *)
Theorem filter_usinas_by_region_raises (df : DataFrame) :
  (has_column df "latitude" = false →
     filter_usinas_by_region df = Raise (Exn KeyError "latitude")) ∧
  (comparable df "latitude" → has_column df "longitude" = false →
     filter_usinas_by_region df = Raise (Exn KeyError "longitude")) ∧
  (has_column df "latitude" = true →
   (∃ r s, r ∈ rows df ∧ cell r "latitude" = VStr s) →
     ∃ msg, filter_usinas_by_region df = Raise (Exn TypeError msg)).
Proof.
  unfold filter_usinas_by_region, getitem. split; [|split].
  - by intros ->.
  - intros [Hc F] Hl. rewrite Hc. cbn [bind_o].
    rewrite between_Return by (by apply Forall_fmap). cbn [bind_o]. by rewrite Hl.
  - intros Hc (r & s & Hr & Hs). rewrite Hc. cbn [bind_o].
    unfold between, Series_ge. rewrite mapM_compare_raise; [by eexists|].
    apply List.Exists_exists. exists (VStr s). split; [|done].
    rewrite <- list_elem_of_In, list_elem_of_fmap. exists r. by rewrite Hs.
Qed.

(** X4.  Dropping the rows without coordinates and filtering by region fit
    together: a record set the filter returns loses nothing to
    [dropna(subset=['latitude', 'longitude'])], and when the filter returns
    on a record set, dropping the rows without coordinates first gives the
    same result. *)
Theorem filter_usinas_by_region_dropna (df out : DataFrame) :
  filter_usinas_by_region df = Return out →
  dropna out ["latitude"; "longitude"] = Return out ∧
  ∃ d, dropna df ["latitude"; "longitude"] = Return d ∧
       filter_usinas_by_region d = Return out.
Proof.
  intros H. destruct (filter_usinas_by_region_inv _ _ H) as [[Ca Fa] [Cb Fb]].
  rewrite filter_usinas_by_region_Return in H by done. injection H as <-.
  destruct (filter_implied keep has_coordinates (rows df) keep_has_coordinates)
    as [E1 E2].
  split.
  - rewrite dropna_coordinates by done. cbn [columns rows]. by rewrite E1.
  - eexists. split; [by apply dropna_coordinates|].
    rewrite filter_usinas_by_region_Return; cbn [columns rows].
    + by rewrite E2.
    + split; [done|]. rewrite Forall_forall in Fa |- *.
      intros r [Hr _]%list_elem_of_In%filter_In. apply Fa. by apply list_elem_of_In.
    + split; [done|]. rewrite Forall_forall in Fb |- *.
      intros r [Hr _]%list_elem_of_In%filter_In. apply Fb. by apply list_elem_of_In.
Qed.

(** ** More on the coordinate normalizer *)

Lemma with_column_elem cs c : c ∈ cs → with_column cs c = cs.
Proof. intros H. unfold with_column. by rewrite bool_decide_eq_true_2. Qed.

Lemma replace_char_idempotent old new s :
  old ≠ new →
  replace_char old new (replace_char old new s) = replace_char old new s.
Proof.
  intros H. induction s as [|c s IH]; [done|]. cbn [replace_char]. rewrite IH.
  f_equal. destruct (Ascii.eqb c old) eqn:E; [|by rewrite E].
  destruct (Ascii.eqb new old) eqn:E'; [|done].
  apply Ascii.eqb_eq in E'. congruence.
Qed.

Lemma existsb_none {A} (p : A → bool) (l : list A) :
  Forall (λ a, p a = false) l → existsb p l = false.
Proof. induction 1 as [|a l Ha _ IH]; [done|]. cbn. by rewrite Ha, IH. Qed.

Lemma filter_all {A} (p : A → bool) (l : list A) :
  Forall (λ a, p a = true) l → List.filter p l = l.
Proof. induction 1 as [|a l Ha _ IH]; [done|]. cbn. by rewrite Ha, IH. Qed.

Section MoreNormalizerProperties.

Variable float_of_string : string → option float.

Local Abbreviation normalize := (normalize float_of_string).
Local Abbreviation with_coordinates := (with_coordinates float_of_string).
Local Abbreviation both_parsed := (both_parsed float_of_string).

Lemma with_coordinates_idempotent r :
  with_coordinates (with_coordinates r) = with_coordinates r.
Proof.
  unfold with_coordinates at 1.
  rewrite !cell_with_coordinates_raw by done. unfold with_coordinates.
  rewrite (insert_insert_ne _ "latitude" "longitude") by done.
  by rewrite !insert_insert_eq.
Qed.

Lemma both_parsed_strings r :
  both_parsed r = true →
  is_num (cell r "lat_str") = false ∧ is_num (cell r "lng_str") = false.
Proof.
  intros [P1 P2]%andb_true_iff.
  apply notna_normalize in P1 as (x & ? & -> & _).
  apply notna_normalize in P2 as (y & ? & -> & _). done.
Qed.

(** X5.  Normalizing is idempotent: the record set the normalizer returns,
    given to the normalizer again, comes back unchanged, and this time the
    record set passed in is left as it was. *)
Theorem process_coordinates_idempotent (df out df' : DataFrame) :
  process_coordinates float_of_string df = (Return out, df') →
  process_coordinates float_of_string out = (Return out, out).
Proof.
  intros H. destruct (process_coordinates_inv _ _ _ _ H) as [S1 S2].
  rewrite process_coordinates_run in H by done.
  injection H as <- _. destruct S1 as [Hc1 _], S2 as [Hc2 _].
  set (cols := with_column (with_column (columns df) "latitude") "longitude").
  set (kept := List.filter both_parsed (rows df)).
  assert (Hlat : "latitude" ∈ cols).
  { unfold cols. apply (elem_of_with_column float_of_string). left. apply (elem_of_with_column float_of_string). by right. }
  assert (Hlon : "longitude" ∈ cols) by (unfold cols; apply (elem_of_with_column float_of_string); by right).
  assert (Hkept : Forall (λ r, both_parsed r = true) kept).
  { apply Forall_forall. by intros r [_ ?]%list_elem_of_In%filter_In. }
  assert (Hstr : ∀ c, c = "lat_str" ∨ c = "lng_str" → has_column df c = true →
            str_column (mkDataFrame cols (with_coordinates <$> kept)) c).
  { intros c Hc Hin. split.
    - apply bool_decide_eq_true. cbn [columns]. subst cols.
      apply (elem_of_with_column float_of_string). left. apply (elem_of_with_column float_of_string). left.
      by apply bool_decide_eq_true in Hin.
    - cbn [rows]. rewrite existsb_none; [done|].
      rewrite <- list_fmap_compose. apply Forall_fmap.
      eapply Forall_impl; [exact Hkept|]. intros r Hp. cbn.
      apply both_parsed_strings in Hp as [N1 N2].
      destruct Hc as [-> | ->]; by rewrite cell_with_coordinates_raw. }
  rewrite process_coordinates_run by (apply Hstr; auto).
  cbn [columns rows]. rewrite !with_column_elem by (by rewrite ?with_column_elem).
  assert (E : with_coordinates <$> (with_coordinates <$> kept) = with_coordinates <$> kept).
  { rewrite <- list_fmap_compose. apply list_fmap_ext. intros _ r _. cbn.
    apply with_coordinates_idempotent. }
  rewrite filter_all.
  - by rewrite E.
  - apply Forall_fmap. eapply Forall_impl; [exact Hkept|]. intros r Hp. cbn.
    rewrite <- Hp. symmetry. apply both_parsed_with_coordinates.
    symmetry. apply with_coordinates_idempotent.
Qed.

(** X6.  A failure half way leaves its mark: on a record set whose
    [lat_str] column is fine and which has no [lng_str] column the
    normalizer raises [KeyError] for [lng_str], and by then the record set
    it was given has got its [latitude] column assigned. *)
Theorem process_coordinates_half_done (df : DataFrame) :
  str_column df "lat_str" → has_column df "lng_str" = false →
  process_coordinates float_of_string df =
    (Raise (Exn KeyError "lng_str"),
     mkDataFrame (with_column (columns df) "latitude")
       ((λ r, <["latitude" := normalize (cell r "lat_str")]> r) <$> rows df)).
Proof.
  intros [Hc1 Hs1] Hc2.
  unfold process_coordinates, bind, get_column, lift, set_column, getitem.
  rewrite Hc1. unfold Series_str_replace. rewrite Hs1.
  rewrite (setitem_normalized float_of_string df "latitude" "lat_str" id (rows df))
    by (by rewrite list_fmap_id).
  set (df1 := mkDataFrame _ _).
  assert (H1 : has_column df1 "lng_str" = false).
  { apply bool_decide_eq_false. subst df1. cbn [columns].
    rewrite (elem_of_with_column float_of_string). apply bool_decide_eq_false in Hc2.
    by intros [?|?]. }
  by rewrite H1.
Qed.

(** X7.  A decimal point is read like a decimal comma: a raw coordinate
    string and the same string with every comma already replaced by a
    period normalize to the same cell, and the string that is parsed holds
    no comma. *)
Theorem normalize_comma_or_period (x : string) :
  normalize (VStr (replace_char "," "." x)) = normalize (VStr x) ∧
  ∀ i, String.get i (replace_char "," "." x) ≠ Some ","%char.
Proof.
  split.
  - unfold normalize. cbn [str_replace_cell]. by rewrite replace_char_idempotent.
  - induction x as [|c x IH]; intros i; [done|].
    cbn [replace_char]. destruct i as [|i]; cbn [String.get]; [|apply IH].
    destruct (Ascii.eqb c ",") eqn:E; [done|].
    intros [= ->]. by rewrite Ascii.eqb_refl in E.
Qed.

End MoreNormalizerProperties.

(** ** More on the remote fetcher *)

(** One call of the function the retry loop wraps, case by case on what
    the request meets. *)
Lemma fetch_aneel_body_cases w :
  fetch_aneel_body w =
    let w1 := emit (EvRequest aneel_request) w in
    match server w (attempts w) with
    | ConnectionFailed reason =>
        (Return DataFrame_empty, emit (EvError ("Erro na API ANEEL: " +:+ reason)) w1)
    | Responded code b =>
        if is_http_error code then
          (Return DataFrame_empty, emit (EvError "Erro na API ANEEL: HTTPError") w1)
        else
          match b with
          | NotJson =>
              (Return DataFrame_empty,
               emit (EvError "Erro na API ANEEL: JSONDecodeError") w1)
          | NotAnObject | ResultNotAnObject =>
              (Raise (Exn AttributeError "object has no attribute 'get'"), w1)
          | RecordsNotTabular =>
              (Raise (Exn ValueError "DataFrame constructor not properly called!"), w1)
          | Payload d => (Return d, w1)
          end
    end.
Proof.
  unfold fetch_aneel_body, try_except, bind, requests_get, lift, raise_for_status,
    records_frame.
  destruct (server w (attempts w)) as [reason|code b]; [done|].
  cbn [status_code_of body_of]. destruct (is_http_error code); [done|].
  by destruct b.
Qed.

Lemma fetch_aneel_body_raise_inv w e w' :
  fetch_aneel_body w = (Raise e, w') →
  ∃ code b, server w (attempts w) = Responded code b ∧
            is_http_error code = false ∧ undecodable b ∧
            w' = emit (EvRequest aneel_request) w.
Proof.
  rewrite fetch_aneel_body_cases. cbv zeta. unfold undecodable.
  destruct (server w (attempts w)) as [reason|code b]; [done|].
  destruct (is_http_error code) eqn:E; [done|].
  destruct b; try done; intros [= _ <-]; eexists code, _; naive_solver.
Qed.

Lemma fetch_aneel_body_undecodable w code b :
  server w (attempts w) = Responded code b →
  is_http_error code = false → undecodable b →
  ∃ e, fetch_aneel_body w = (Raise e, emit (EvRequest aneel_request) w).
Proof.
  intros S C U. rewrite fetch_aneel_body_cases. cbv zeta. rewrite S, C.
  destruct U as [->|[->| ->]]; by eexists.
Qed.




(** X8.  The fetcher's good path: when the first request is answered with
    a status that is no error and a body that decodes to records, the
    fetcher returns those records after that one request, with no sleep and
    no message. *)
Theorem fetch_aneel_first_answer (w : World) (code : nat) (d : DataFrame) :
  server w (attempts w) = Responded code (Payload d) →
  is_http_error code = false →
  fetch_aneel w = (Return d, emit (EvRequest aneel_request) w).
Proof.
  intros H Hc. unfold fetch_aneel, retry. apply retry_from_Return.
  rewrite fetch_aneel_body_cases. cbv zeta. by rewrite H, Hc.
Qed.

(** X9.  The fetcher fails soft on every error of the requests library: a
    4xx or 5xx status, or a body that is no JSON, gives the empty record set
    after one request, with the error shown. *)
Theorem fetch_aneel_http_error_soft (w : World) (code : nat) (b : body) :
  server w (attempts w) = Responded code b →
  is_http_error code = true ∨ b = NotJson →
  ∃ msg,
    fetch_aneel w =
      (Return DataFrame_empty,
       emit (EvError ("Erro na API ANEEL: " +:+ msg)) (emit (EvRequest aneel_request) w)).
Proof.
  intros H Hb. unfold fetch_aneel, retry.
  destruct (is_http_error code) eqn:Hc.
  - exists "HTTPError". apply retry_from_Return.
    rewrite fetch_aneel_body_cases. cbv zeta. by rewrite H, Hc.
  - destruct Hb as [?| ->]; [done|]. exists "JSONDecodeError". apply retry_from_Return.
    rewrite fetch_aneel_body_cases. cbv zeta. by rewrite H, Hc.
Qed.


(** X11.  The fetcher raises nothing but [RetryError], and it does so
    exactly when three requests in a row are each answered, with a status
    that is no error, by a JSON body from which no frame is built: a value
    that is no object, an object whose [result] is no object, or one whose
    [records] are not tabular. *)
Theorem fetch_aneel_raises_only_RetryError (w : World) :
  (∀ e w',
     fetch_aneel w = (Raise e, w') →
     e = Exn RetryError "RetryError" ∧
     attempts w' = (attempts w + 3)%nat ∧
     ∀ i, (i < 3)%nat →
       ∃ code b, server w (attempts w + i)%nat = Responded code b ∧
                 is_http_error code = false ∧ undecodable b) ∧
  ((∀ i, (i < 3)%nat →
      ∃ code b, server w (attempts w + i)%nat = Responded code b ∧
                is_http_error code = false ∧ undecodable b) →
   (fetch_aneel w).1 = Raise (Exn RetryError "RetryError")).
Proof.
  unfold fetch_aneel, retry. cbn [Nat.sub retry_from].
  set (w2 := emit (EvSleep (wait_exponential 1 2 10 1)) (emit (EvRequest aneel_request) w)).
  set (w4 := emit (EvSleep (wait_exponential 1 2 10 2)) (emit (EvRequest aneel_request) w2)).
  assert (A2 : attempts w2 = (attempts w + 1)%nat ∧ server w2 = server w)
    by (split; [unfold w2; rewrite !attempts_emit; cbn [is_request]; lia|done]).
  assert (A4 : attempts w4 = (attempts w + 2)%nat ∧ server w4 = server w)
    by (split; [unfold w4; rewrite !attempts_emit; cbn [is_request];
                rewrite (proj1 A2); lia
               |exact (proj2 A2)]).
  destruct A2 as [A2 Sv2], A4 as [A4 Sv4].
  split.
  - intros e w' H.
    destruct (fetch_aneel_body w) as [[a1|e1] w1] eqn:E1; [done|].
    apply fetch_aneel_body_raise_inv in E1 as (c1 & b1 & S1 & C1 & U1 & ->).
    fold w2 in H.
    destruct (fetch_aneel_body w2) as [[a2|e2] w3] eqn:E2; [done|].
    apply fetch_aneel_body_raise_inv in E2 as (c2 & b2 & S2 & C2 & U2 & ->).
    fold w4 in H.
    destruct (fetch_aneel_body w4) as [[a3|e3] w5] eqn:E3; [done|].
    apply fetch_aneel_body_raise_inv in E3 as (c3 & b3 & S3 & C3 & U3 & ->).
    injection H as <- <-. split; [done|]. split.
    + rewrite attempts_emit. cbn [is_request]. rewrite A4. lia.
    + rewrite Sv2, A2 in S2. rewrite Sv4, A4 in S3.
      intros i Hi. destruct i as [|[|[|i]]]; [| | |lia].
      * exists c1, b1. by rewrite Nat.add_0_r.
      * by exists c2, b2.
      * by exists c3, b3.
  - intros H.
    destruct (H 0%nat ltac:(lia)) as (c1 & b1 & S1 & C1 & U1).
    destruct (H 1%nat ltac:(lia)) as (c2 & b2 & S2 & C2 & U2).
    destruct (H 2%nat ltac:(lia)) as (c3 & b3 & S3 & C3 & U3).
    rewrite Nat.add_0_r in S1.
    rewrite <- A2, <- Sv2 in S2. rewrite <- A4, <- Sv4 in S3.
    destruct (fetch_aneel_body_undecodable w c1 b1 S1 C1 U1) as (e1 & ->).
    fold w2.
    destruct (fetch_aneel_body_undecodable w2 c2 b2 S2 C2 U2) as (e2 & ->).
    fold w4.
    by destruct (fetch_aneel_body_undecodable w4 c3 b3 S3 C3 U3) as (e3 & ->).
Qed.


(** ** More on the registry loader *)

Section MoreLoaderProperties.

Variable float_of_string : string → option float.

Local Abbreviation both_parsed := (both_parsed float_of_string).

Lemma load_aneel_data_frame w p :
  p ≠ Config.ANEEL_CACHE →
  files (load_aneel_data float_of_string w).2 !! p = files w !! p.
Proof.
  intros Hp. assert (Hp' : Config.ANEEL_CACHE ≠ p) by congruence.
  destruct (files w !! Config.ANEEL_CACHE) as [[d|d|]|] eqn:E.
  2: by rewrite (load_aneel_data_cached float_of_string w d E).
  all: rewrite load_aneel_data_miss by (unfold cache_miss; rewrite E; exact I);
    destruct (fetch_after_probe_unchanged w) as [Hf _];
    unfold rebuild_aneel, bind;
    destruct (fetch_aneel (cache_probe w)) as [[df|e] w2]; cbn [snd] in *;
    [|by rewrite Hf];
    destruct (empty df); cbn [negb]; [by (cbn; rewrite Hf)|];
    unfold call_process_coordinates, lift;
    destruct (process_coordinates float_of_string df).1 as [out|e];
    [|by (cbn; rewrite Hf)];
    unfold to_parquet; destruct (arrow_error out); cbn;
    [by rewrite Hf|by (rewrite lookup_insert_ne by done; rewrite Hf)].
Qed.

(** X13.  The registry loader, called again after it has rebuilt the
    snapshot from a normalized set that pyarrow converts, takes the snapshot
    path: its one effect is the read of the snapshot, so there is no further
    request, no further write and no message, the files are as the first
    call left them, and the record set returned is the one the first call
    returned. *)
Theorem load_aneel_data_second_call (w : World) (df : DataFrame) (w2 : World)
    (out df' : DataFrame) :
  cache_miss w →
  fetch_aneel (cache_probe w) = (Return df, w2) → empty df = false →
  process_coordinates float_of_string df = (Return out, df') →
  one_type_per_column out →
  ∃ w1 w3,
    load_aneel_data float_of_string w = (Return out, w1) ∧
    load_aneel_data float_of_string w1 = (Return out, w3) ∧
    trace w3 = EvReadParquet Config.ANEEL_CACHE :: trace w1 ∧
    attempts w3 = attempts w1 ∧ snapshot_writes w3 = snapshot_writes w1 ∧
    files w3 = files w1.
Proof.
  intros M F E P T. eexists _, _.
  rewrite load_aneel_data_miss by done.
  split; [by eapply rebuild_aneel_nonempty|].
  split; [apply load_aneel_data_cached; cbn [files]; apply lookup_insert_eq|].
  done.
Qed.


(** X15.  Records without a [lat_str] column are not survived: after a
    miss, when the fetched record set is not empty and lacks that column,
    the loader raises [KeyError] for it, having written nothing. *)
Theorem load_aneel_data_bad_records_raise (w : World) (df : DataFrame) (w2 : World) :
  cache_miss w →
  fetch_aneel (cache_probe w) = (Return df, w2) → empty df = false →
  has_column df "lat_str" = false →
  load_aneel_data float_of_string w = (Raise (Exn KeyError "lat_str"), w2) ∧
  files w2 = files w ∧ snapshot_writes w2 = snapshot_writes w.
Proof.
  intros M F E Hc. rewrite load_aneel_data_miss by done.
  destruct (fetch_after_probe_unchanged w) as [Hf Hs]. rewrite F in Hf, Hs.
  split; [|done].
  unfold rebuild_aneel, bind. rewrite F, E. cbn [negb].
  unfold call_process_coordinates, lift, process_coordinates, bind, get_column, getitem.
  by rewrite Hc.
Qed.

(** X16.  The registry loader writes nowhere but at its snapshot: in every
    world, whatever another path holds before a call it holds after it. *)
Theorem load_aneel_data_writes_only_its_snapshot (w : World) (p : string) :
  p ≠ Config.ANEEL_CACHE →
  files (load_aneel_data float_of_string w).2 !! p = files w !! p.
Proof. apply load_aneel_data_frame. Qed.

End MoreLoaderProperties.

(** ** More on the franchise, plant and company loaders *)

(** The franchise loader, case by case on what the two paths hold. *)
Lemma load_franchise_data_cases w :
  load_franchise_data w =
    match files w !! Config.FRANCHISE_DATA with
    | Some (Parquet d) => (Return d, emit (EvReadParquet Config.FRANCHISE_DATA) w)
    | _ =>
        let w1 := franchise_probe w in
        match files w !! Config.FRANCHISE_INPUT with
        | None => (Return DataFrame_empty, w1)
        | Some (Csv src) =>
            match dropna src ["latitude"; "longitude"] with
            | Return df =>
                match arrow_error df with
                | None =>
                    (Return df,
                     mkWorld (<[Config.FRANCHISE_DATA := Parquet df]> (files w1))
                       (server w1)
                       (EvToParquet Config.FRANCHISE_DATA
                          :: EvReadCsv Config.FRANCHISE_INPUT :: trace w1))
                | Some e =>
                    (Return DataFrame_empty,
                     emit (EvError ("Erro ao carregar franquias do CSV: " +:+ exn_str e))
                       (emit (EvReadCsv Config.FRANCHISE_INPUT) w1))
                end
            | Raise e =>
                (Return DataFrame_empty,
                 emit (EvError ("Erro ao carregar franquias do CSV: " +:+ exn_str e))
                   (emit (EvReadCsv Config.FRANCHISE_INPUT) w1))
            end
        | Some _ =>
            (Return DataFrame_empty,
             emit (EvError ("Erro ao carregar franquias do CSV: "
                            +:+ "Error tokenizing data"))
               (emit (EvReadCsv Config.FRANCHISE_INPUT) w1))
        end
    end.
Proof.
  unfold load_franchise_data. unfold bind at 1.
  match goal with |- (let (_, _) := ?m w in _) = _ => set (probe := m w) end.
  assert (P : probe =
    match files w !! Config.FRANCHISE_DATA with
    | Some (Parquet d) => (Return (Some d), emit (EvReadParquet Config.FRANCHISE_DATA) w)
    | _ => (Return None, franchise_probe w)
    end).
  { subst probe.
    unfold franchise_probe, bind, exists_, try_except, read_parquet, ret, st_error.
    destruct (files w !! Config.FRANCHISE_DATA) as [[d|d|]|] eqn:E;
      [rewrite bool_decide_eq_true_2 by done; cbv beta; by rewrite E
      |rewrite bool_decide_eq_true_2 by done; cbv beta; by rewrite E
      |rewrite bool_decide_eq_true_2 by done; cbv beta; by rewrite E
      |by rewrite bool_decide_eq_false_2 by apply not_is_Some_None]. }
  rewrite P. clear P probe.
  assert (Hprobe : files (franchise_probe w) = files w)
    by (unfold franchise_probe; by destruct (files w !! Config.FRANCHISE_DATA)).
  assert (Rest : ∀ w1, files w1 = files w →
    (let* loaded :=
       (let* present := exists_ Config.FRANCHISE_INPUT in
        if present then
          try_except
            (let* df := read_csv Config.FRANCHISE_INPUT in
             let* df := lift (dropna df ["latitude"; "longitude"]) in
             to_parquet df Config.FRANCHISE_DATA >> ret (Some df))
            is_Exception
            (λ e, st_error ("Erro ao carregar franquias do CSV: " +:+ exn_str e) >>
                  ret None)
        else ret None) in
     match loaded with
     | Some df => ret df
     | None => ret DataFrame_empty
     end) w1 =
    match files w !! Config.FRANCHISE_INPUT with
    | None => (Return DataFrame_empty, w1)
    | Some (Csv src) =>
        match dropna src ["latitude"; "longitude"] with
        | Return df =>
            match arrow_error df with
            | None =>
                (Return df,
                 mkWorld (<[Config.FRANCHISE_DATA := Parquet df]> (files w1)) (server w1)
                   (EvToParquet Config.FRANCHISE_DATA
                      :: EvReadCsv Config.FRANCHISE_INPUT :: trace w1))
            | Some e =>
                (Return DataFrame_empty,
                 emit (EvError ("Erro ao carregar franquias do CSV: " +:+ exn_str e))
                   (emit (EvReadCsv Config.FRANCHISE_INPUT) w1))
            end
        | Raise e =>
            (Return DataFrame_empty,
             emit (EvError ("Erro ao carregar franquias do CSV: " +:+ exn_str e))
               (emit (EvReadCsv Config.FRANCHISE_INPUT) w1))
        end
    | Some _ =>
        (Return DataFrame_empty,
         emit (EvError ("Erro ao carregar franquias do CSV: "
                        +:+ "Error tokenizing data"))
           (emit (EvReadCsv Config.FRANCHISE_INPUT) w1))
    end).
  { intros w1 Hw1.
    assert (L : ∀ p, files w1 !! p = files w !! p) by (intros; by rewrite Hw1).
    unfold bind, exists_, try_except, read_csv, lift, to_parquet, ret, st_error.
    rewrite L.
    destruct (files w !! Config.FRANCHISE_INPUT) as [[src|src|]|] eqn:E;
      [rewrite bool_decide_eq_true_2 by done; cbv beta; rewrite L, E;
       destruct (dropna src _) as [df|e]; [|done]; by destruct (arrow_error df)
      |rewrite bool_decide_eq_true_2 by done; cbv beta; by rewrite L, E
      |rewrite bool_decide_eq_true_2 by done; cbv beta; by rewrite L, E
      |by rewrite bool_decide_eq_false_2 by apply not_is_Some_None]. }
  cbv zeta.
  destruct (files w !! Config.FRANCHISE_DATA) as [[d|d|]|] eqn:E;
    [by apply Rest|done|by apply Rest|by apply Rest].
Qed.

(** The plant loader, case by case on what its path holds. *)
Lemma load_usina_data_cases w :
  load_usina_data w =
    match files w !! Config.USINA_INPUT with
    | None =>
        (Return DataFrame_empty, emit (EvError "Arquivo de usinas não encontrado.") w)
    | Some f =>
        let w1 := emit (EvReadCsv Config.USINA_INPUT) w in
        let failed (msg : string) :=
          (Return DataFrame_empty,
           emit (EvError "Arquivo de usinas não encontrado.")
             (emit (EvError ("Erro ao carregar usinas do CSV: " +:+ msg)) w1)) in
        match f with
        | Csv src =>
            match usina_pipeline src with
            | Return df => (Return df, w1)
            | Raise e => failed (exn_str e)
            end
        | _ => failed "Error tokenizing data"
        end
    end.
Proof.
  unfold load_usina_data, usina_pipeline, bind, exists_, try_except, read_csv, lift,
    ret, st_error, bind_o.
  destruct (files w !! Config.USINA_INPUT) as [[src|src|]|] eqn:E;
    [rewrite bool_decide_eq_true_2 by done; cbv beta zeta; rewrite E;
     destruct (dropna src _) as [df|e]; [|done];
     by destruct (filter_usinas_by_region df)
    |rewrite bool_decide_eq_true_2 by done; cbv beta zeta; by rewrite E
    |rewrite bool_decide_eq_true_2 by done; cbv beta zeta; by rewrite E
    |by rewrite bool_decide_eq_false_2 by apply not_is_Some_None].
Qed.

(** The company loader, case by case on what its path holds. *)
Lemma load_company_data_cases w :
  load_company_data w =
    match files w !! Config.COMPANY_DATA with
    | None => (Return DataFrame_empty, w)
    | Some (Parquet d) => (Return d, emit (EvReadParquet Config.COMPANY_DATA) w)
    | Some _ =>
        (Return DataFrame_empty,
         emit (EvError ("Erro nos dados da empresa: " +:+ "Parquet magic bytes not found"))
           (emit (EvReadParquet Config.COMPANY_DATA) w))
    end.
Proof.
  unfold load_company_data, bind, exists_, try_except, read_parquet, ret, st_error.
  destruct (files w !! Config.COMPANY_DATA) as [[d|d|]|] eqn:E;
    [rewrite bool_decide_eq_true_2 by done; cbv beta; by rewrite E
    |rewrite bool_decide_eq_true_2 by done; cbv beta; by rewrite E
    |rewrite bool_decide_eq_true_2 by done; cbv beta; by rewrite E
    |by rewrite bool_decide_eq_false_2 by apply not_is_Some_None].
Qed.

Lemma franchise_probe_after w :
  files (franchise_probe w) = files w ∧ server (franchise_probe w) = server w ∧
  attempts (franchise_probe w) = attempts w.
Proof. unfold franchise_probe. by destruct (files w !! Config.FRANCHISE_DATA). Qed.

(** X17.  The franchise loader never raises: in every world it returns a
    record set; it sends no request, and it writes nowhere but at its
    snapshot. *)
Theorem load_franchise_data_never_raises (w : World) :
  ∃ d w',
    load_franchise_data w = (Return d, w') ∧
    attempts w' = attempts w ∧
    ∀ p, p ≠ Config.FRANCHISE_DATA → files w' !! p = files w !! p.
Proof.
  rewrite load_franchise_data_cases. cbv zeta.
  destruct (franchise_probe_after w) as (Hf & _ & Ha).
  destruct (files w !! Config.FRANCHISE_DATA) as [[d|d|]|];
    try (by eexists _, _);
    (destruct (files w !! Config.FRANCHISE_INPUT) as [[src|src|]|];
     [destruct (dropna src _) as [df|e]; [destruct (arrow_error df)|]| | |]);
    eexists _, _; (split; [done|]);
    rewrite ?attempts_emit; cbn [is_request files emit];
    (split; [exact Ha|]); intros p Hp;
    rewrite ?lookup_insert_ne by done; by rewrite Hf.
Qed.

(** X18.  A snapshot that does not deserialize is rebuilt: the franchise
    loader shows the error, reads the source file, returns its rows that
    have both coordinates, in order, and overwrites the snapshot with
    them.  The source is a frame as [read_csv] gives it for a file read in
    one piece, with one type per column. *)
Theorem load_franchise_data_rebuilds_snapshot (w : World) (f : file) (src : DataFrame) :
  files w !! Config.FRANCHISE_DATA = Some f → (∀ d, f ≠ Parquet d) →
  files w !! Config.FRANCHISE_INPUT = Some (Csv src) →
  one_type_per_column src →
  has_column src "latitude" = true → has_column src "longitude" = true →
  ∃ out w' msg,
    load_franchise_data w = (Return out, w') ∧
    out = mkDataFrame (columns src) (List.filter has_coordinates (rows src)) ∧
    files w' !! Config.FRANCHISE_DATA = Some (Parquet out) ∧
    errors w' = ("Erro ao carregar dados de franquias: " +:+ msg) :: errors w.
Proof.
  intros HD Hf HI T H1 H2. rewrite load_franchise_data_cases. cbv zeta.
  rewrite HD, HI, dropna_coordinates by done.
  assert (A : arrow_error (mkDataFrame (columns src)
                             (List.filter has_coordinates (rows src))) = None).
  { apply arrow_error_None. destruct src as [cols l].
    by apply one_type_per_column_filter. }
  rewrite A.
  assert (P : franchise_probe w =
    emit (EvError ("Erro ao carregar dados de franquias: "
                   +:+ "Parquet magic bytes not found"))
      (emit (EvReadParquet Config.FRANCHISE_DATA) w))
    by (unfold franchise_probe; by rewrite HD).
  destruct f as [d|d|]; [|by destruct (Hf d)|];
    eexists _, _, _; (split; [done|]); (split; [done|]);
    (split; [cbn [files]; apply lookup_insert_eq|]); by rewrite P.
Qed.

(** X19.  A source file that cannot be used is reported, not raised: with
    no snapshot and a source file that does not parse or that lacks the
    [latitude] column, the franchise loader shows the error, returns the
    empty record set and writes no snapshot. *)
Theorem load_franchise_data_bad_source (w : World) (f : file) :
  files w !! Config.FRANCHISE_DATA = None →
  files w !! Config.FRANCHISE_INPUT = Some f →
  (∀ src, f = Csv src → has_column src "latitude" = false) →
  ∃ msg w',
    load_franchise_data w = (Return DataFrame_empty, w') ∧
    errors w' = ("Erro ao carregar franquias do CSV: " +:+ msg) :: errors w ∧
    files w' = files w.
Proof.
  intros HD HI Hf. rewrite load_franchise_data_cases. cbv zeta.
  assert (P : franchise_probe w = w) by (unfold franchise_probe; by rewrite HD).
  rewrite HD, HI, P. destruct f as [src|d|].
  - unfold dropna. cbn [List.filter]. rewrite (Hf src eq_refl). cbn [negb].
    by eexists _, _.
  - by eexists _, _.
  - by eexists _, _.
Qed.

(** X20.  The plant loader never raises: in every world it returns a
    record set, and it leaves the files as they were and sends no
    request. *)
Theorem load_usina_data_never_raises (w : World) :
  ∃ d w',
    load_usina_data w = (Return d, w') ∧
    files w' = files w ∧ server w' = server w ∧ attempts w' = attempts w.
Proof.
  rewrite load_usina_data_cases. cbv zeta.
  destruct (files w !! Config.USINA_INPUT) as [[src|src|]|];
    [destruct (usina_pipeline src)| | |]; by eexists _, _.
Qed.

(** X21.  The plant loader's good path: for a source file whose coordinate
    columns exist and hold no string, it returns, with no message shown,
    exactly the rows of the file that lie in one of the two boxes, in the
    order of the file. *)
Theorem load_usina_data_returns_rows_in_boxes (w : World) (src : DataFrame) :
  files w !! Config.USINA_INPUT = Some (Csv src) →
  comparable src "latitude" → comparable src "longitude" →
  load_usina_data w =
    (Return (mkDataFrame (columns src) (filter retained (rows src))),
     emit (EvReadCsv Config.USINA_INPUT) w).
Proof.
  intros HI [C1 F1] [C2 F2]. rewrite load_usina_data_cases. cbv zeta. rewrite HI.
  unfold usina_pipeline. rewrite dropna_coordinates by done. cbn [bind_o].
  rewrite filter_usinas_by_region_Return; cbn [columns rows].
  - destruct (filter_implied keep has_coordinates (rows src) keep_has_coordinates)
      as [_ ->]. by rewrite filter_keep_retained.
  - split; [done|]. rewrite Forall_forall in F1 |- *.
    intros r [Hr _]%list_elem_of_In%filter_In. apply F1. by apply list_elem_of_In.
  - split; [done|]. rewrite Forall_forall in F2 |- *.
    intros r [Hr _]%list_elem_of_In%filter_In. apply F2. by apply list_elem_of_In.
Qed.

(** X22.  A source file that is there but cannot be used is reported as
    not found: when the plant file does not parse, or lacks the [latitude]
    column, the loader shows the error of the read and then also
    [Arquivo de usinas não encontrado.], and returns the empty record
    set. *)
Theorem load_usina_data_present_but_unusable (w : World) (f : file) :
  files w !! Config.USINA_INPUT = Some f →
  (∀ src, f = Csv src → has_column src "latitude" = false) →
  ∃ msg w',
    load_usina_data w = (Return DataFrame_empty, w') ∧
    errors w' =
      "Arquivo de usinas não encontrado."
        :: ("Erro ao carregar usinas do CSV: " +:+ msg) :: errors w.
Proof.
  intros HI Hf. rewrite load_usina_data_cases. cbv zeta. rewrite HI.
  destruct f as [src|d|].
  - unfold usina_pipeline, dropna. cbn [List.filter]. rewrite (Hf src eq_refl).
    cbn [negb bind_o]. by eexists _, _.
  - by eexists _, _.
  - by eexists _, _.
Qed.

(** X23.  The company loader never raises and never writes: it returns the
    snapshot when that deserializes; the empty record set, silently and
    with the world untouched, when there is no snapshot; and the empty
    record set with an error shown when the snapshot does not
    deserialize. *)
Theorem load_company_data_behaviour (w : World) :
  (∃ d w', load_company_data w = (Return d, w') ∧
           files w' = files w ∧ attempts w' = attempts w) ∧
  (∀ d, files w !! Config.COMPANY_DATA = Some (Parquet d) →
        (load_company_data w).1 = Return d) ∧
  (files w !! Config.COMPANY_DATA = None →
     load_company_data w = (Return DataFrame_empty, w)) ∧
  (∀ f, files w !! Config.COMPANY_DATA = Some f → (∀ d, f ≠ Parquet d) →
     (load_company_data w).1 = Return DataFrame_empty ∧
     ∃ msg, errors (load_company_data w).2 = msg :: errors w).
Proof.
  rewrite load_company_data_cases.
  split; [|split; [|split]].
  - destruct (files w !! Config.COMPANY_DATA) as [[d|d|]|]; by eexists _, _.
  - by intros d ->.
  - by intros ->.
  - intros f -> Hf. destruct f as [d|d|]; [|by destruct (Hf d)|];
      (split; [done|]); by eexists.
Qed.

(** ** [init_data] *)

Lemma load_franchise_data_frame w p :
  p ≠ Config.FRANCHISE_DATA →
  files (load_franchise_data w).2 !! p = files w !! p.
Proof.
  intros Hp. assert (Hp' : Config.FRANCHISE_DATA ≠ p) by congruence.
  rewrite load_franchise_data_cases. cbv zeta.
  destruct (franchise_probe_after w) as (Hf & _ & _).
  destruct (files w !! Config.FRANCHISE_DATA) as [[d|d|]|];
    try done;
    (destruct (files w !! Config.FRANCHISE_INPUT) as [[src|src|]|];
     [destruct (dropna src _) as [df|e]; [destruct (arrow_error df)|]| | |]);
    cbn [snd files emit]; rewrite ?lookup_insert_ne by done; by rewrite Hf.
Qed.

Lemma load_franchise_data_Return w : ∃ d, (load_franchise_data w).1 = Return d.
Proof.
  rewrite load_franchise_data_cases. cbv zeta.
  destruct (files w !! Config.FRANCHISE_DATA) as [[d|d|]|];
    try (by eexists);
    (destruct (files w !! Config.FRANCHISE_INPUT) as [[src|src|]|];
     [destruct (dropna src _) as [df|e]; [destruct (arrow_error df)|]| | |]); by eexists.
Qed.

Lemma load_usina_data_Return w :
  ∃ d, (load_usina_data w).1 = Return d ∧ files (load_usina_data w).2 = files w.
Proof.
  rewrite load_usina_data_cases. cbv zeta.
  destruct (files w !! Config.USINA_INPUT) as [[src|src|]|];
    [destruct (usina_pipeline src)| | |]; by eexists.
Qed.

(** What the franchise loader returns depends on what its two paths hold
    and on nothing else; likewise the plant loader and its path. *)
Lemma load_franchise_data_depends w1 w2 :
  files w1 !! Config.FRANCHISE_DATA = files w2 !! Config.FRANCHISE_DATA →
  files w1 !! Config.FRANCHISE_INPUT = files w2 !! Config.FRANCHISE_INPUT →
  (load_franchise_data w1).1 = (load_franchise_data w2).1.
Proof.
  intros H1 H2. rewrite !load_franchise_data_cases. cbv zeta. rewrite H1, H2.
  destruct (files w2 !! Config.FRANCHISE_DATA) as [[d|d|]|];
    try done;
    (destruct (files w2 !! Config.FRANCHISE_INPUT) as [[src|src|]|];
     [destruct (dropna src _) as [df|e]; [destruct (arrow_error df)|]| | |]); done.
Qed.

Lemma load_usina_data_depends w1 w2 :
  files w1 !! Config.USINA_INPUT = files w2 !! Config.USINA_INPUT →
  (load_usina_data w1).1 = (load_usina_data w2).1.
Proof.
  intros H. rewrite !load_usina_data_cases. cbv zeta. rewrite H.
  destruct (files w2 !! Config.USINA_INPUT) as [[src|src|]|];
    [destruct (usina_pipeline src)| | |]; done.
Qed.

Lemma Config_paths_distinct :
  Config.FRANCHISE_DATA ≠ Config.ANEEL_CACHE ∧
  Config.FRANCHISE_INPUT ≠ Config.ANEEL_CACHE ∧
  Config.USINA_INPUT ≠ Config.ANEEL_CACHE ∧
  Config.USINA_INPUT ≠ Config.FRANCHISE_DATA.
Proof. repeat split; intros H; vm_compute in H; discriminate H. Qed.

Section InitDataProperties.

Variable float_of_string : string → option float.

(** X24.  The three loaders do not get in each other's way: whenever
    [init_data] returns, its dict holds under [aneel], [franchise] and
    [usinas] what each loader returns when run alone on the initial world;
    in particular the key [usinas] is always there. *)
Theorem init_data_loads_each_alone (w : World) (d : gmap string DataFrame) (w' : World) :
  init_data float_of_string w = (Return d, w') →
  ∃ a f u,
    (load_aneel_data float_of_string w).1 = Return a ∧
    (load_franchise_data w).1 = Return f ∧
    (load_usina_data w).1 = Return u ∧
    d !! "aneel" = Some a ∧ d !! "franchise" = Some f ∧ d !! "usinas" = Some u ∧
    dom d = {["aneel"; "franchise"; "usinas"]}.
Proof.
  unfold init_data. unfold bind at 1. intros H.
  destruct Config_paths_distinct as (D1 & D2 & D3 & D4).
  pose proof (load_aneel_data_frame float_of_string w) as FA.
  destruct (load_aneel_data float_of_string w) as [[a|e] w1]; [|done].
  cbn [snd] in FA. unfold bind at 1 in H.
  pose proof (load_franchise_data_depends w1 w (FA _ D1) (FA _ D2)) as EF.
  pose proof (load_franchise_data_frame w1) as FF.
  destruct (load_franchise_data w1) as [[f|e] w2]; [|done].
  cbn [fst snd] in EF, FF. unfold bind at 1 in H.
  assert (EU : (load_usina_data w2).1 = (load_usina_data w).1).
  { apply load_usina_data_depends. by rewrite (FF _ D4), (FA _ D3). }
  destruct (load_usina_data w2) as [[u|e] w3]; [|done].
  cbn [fst] in EU. injection H as <- _.
  exists a, f, u. repeat split; done.
Qed.

(** X25.  [init_data] raises exactly when the registry loader raises on the
    initial world, with the same exception and in the same world: the two
    other loaders are then not run, and they never raise themselves. *)
Theorem init_data_raises_with_registry_loader (w : World) (e : exn) (w' : World) :
  init_data float_of_string w = (Raise e, w') ↔
  load_aneel_data float_of_string w = (Raise e, w').
Proof.
  unfold init_data. unfold bind at 1.
  destruct (load_aneel_data float_of_string w) as [[a|e1] w1];
    [|split; intros [= <- <-]; reflexivity].
  split; [|done]. unfold bind at 1.
  destruct (load_franchise_data_Return w1) as (f & Hf).
  destruct (load_franchise_data w1) as [[f'|e2] w2]; [|done].
  unfold bind at 1.
  destruct (load_usina_data_Return w2) as (u & Hu & _).
  destruct (load_usina_data w2) as [[u'|e3] w3]; done.
Qed.

End InitDataProperties.

(** ** The map layers *)

Lemma mapM_Return_Forall2 {A B} (f : A → outcome B) (l : list A) (l' : list B) :
  mapM f l = Return l' → Forall2 (λ a b, f a = Return b) l l'.
Proof.
  revert l'. induction l as [|a l IH]; intros l' H; cbn [mapM] in H.
  - injection H as <-. constructor.
  - destruct (f a) as [b|e] eqn:E; [|done].
    destruct (mapM f l) as [bs|e]; [|done].
    injection H as <-. constructor; [done|]. by apply IH.
Qed.

Lemma mapM_total {A B} (f : A → outcome B) (l : list A) :
  Forall (λ a, ∃ b, f a = Return b) l → ∃ l', mapM f l = Return l'.
Proof.
  induction 1 as [|a l [b Hb] _ [bs IH]]; [by eexists|].
  cbn [mapM]. rewrite Hb, IH. by eexists.
Qed.

Section MapLayerProperties.

Variable validate_location : value → value → outcome (float * float).

(** X26.  [add_heatmap] adds one layer or nothing.  On an empty record set
    it returns with the map as it was, whatever columns the set has.  On
    any other it either raises, the map still as it was, or returns having
    added, after the layers already there, one heat map with the radius,
    name and gradient given and one validated point per row, in the order of
    the rows. *)
Theorem add_heatmap_one_layer_or_nothing (data : DataFrame) (name : string)
    (radius : nat) (gradient : option (list (float * string))) (m : Map) :
  match add_heatmap validate_location data name radius gradient m with
  | (Raise _, m') => empty data = false ∧ m' = m
  | (Return _, m') =>
      (empty data = true ∧ m' = m) ∨
      (empty data = false ∧
       ∃ points,
         m' = with_layer m (HeatMap points radius name gradient) ∧
         Forall2 (λ r p,
                    validate_location (cell r "latitude") (cell r "longitude")
                    = Return p)
                 (rows data) points)
  end.
Proof.
  unfold add_heatmap. destruct (empty data); cbn [negb]; [by left|].
  unfold bind, lift, add_to, getitem_pair.
  destruct (has_column data "latitude"), (has_column data "longitude");
    cbn [bind_o]; [|done..].
  destruct (mapM _ _) as [points|e] eqn:E; [|done].
  right. split; [done|]. exists points. split; [done|].
  apply mapM_Return_Forall2 in E. by apply Forall2_fmap_l in E.
Qed.

(** X27.  [add_franchise_markers] adds one cluster or nothing.  On an empty
    record set it returns with the map as it was.  On any other it either
    raises, the map still as it was, or returns having added one cluster
    named [Franquias] with one orange marker per row, in the order of the
    rows, each at the validated location of its row and with the row's
    [Franquia] cell as its popup, or [N/A] when the record set has no such
    column. *)
Theorem add_franchise_markers_one_cluster_or_nothing (data : DataFrame) (m : Map) :
  match add_franchise_markers validate_location data m with
  | (Raise _, m') => empty data = false ∧ m' = m
  | (Return _, m') =>
      (empty data = true ∧ m' = m) ∨
      (empty data = false ∧
       ∃ markers,
         m' = with_layer m (MarkerCluster "Franquias" markers) ∧
         Forall2 (λ r mk,
                    validate_location (cell r "latitude") (cell r "longitude")
                    = Return (marker_location mk) ∧
                    popup mk = (if has_column data "Franquia"
                                then cell r "Franquia" else VStr "N/A") ∧
                    icon_color mk = "orange")
                 (rows data) markers)
  end.
Proof.
  unfold add_franchise_markers. destruct (empty data); cbn [negb]; [by left|].
  unfold bind, lift, add_to.
  destruct (mapM _ _) as [markers|e] eqn:E; [|done].
  right. split; [done|]. exists markers. split; [done|].
  apply mapM_Return_Forall2 in E.
  eapply Forall2_impl; [exact E|]. cbn beta. intros r mk H.
  unfold row_getitem, row_get in H.
  destruct (has_column data "latitude"); cbn [bind_o] in H; [|done].
  destruct (has_column data "longitude"); cbn [bind_o] in H; [|done].
  destruct (validate_location _ _) as [loc|e]; cbn [bind_o] in H; [|done].
  by injection H as <-.
Qed.

(** X28.  A record set with rows and columns but no [latitude] column
    cannot be drawn: both layer functions raise [KeyError], the markers for
    [latitude] at the first row, and leave the map as it was. *)
Theorem map_layers_need_latitude (data : DataFrame) (m : Map) (name : string)
    (radius : nat) (gradient : option (list (float * string))) :
  empty data = false → has_column data "latitude" = false →
  (∃ msg, add_heatmap validate_location data name radius gradient m
            = (Raise (Exn KeyError msg), m)) ∧
  add_franchise_markers validate_location data m
    = (Raise (Exn KeyError "latitude"), m).
Proof.
  intros He Hc. unfold add_heatmap, add_franchise_markers. rewrite He. cbn [negb].
  unfold bind, lift, getitem_pair. rewrite Hc. split.
  { destruct (has_column data "longitude"); by eexists. }
  unfold empty in He. destruct (columns data); [done|].
  destruct (rows data) as [|r rest]; [done|].
  cbn [mapM]. unfold row_getitem at 1. by rewrite Hc.
Qed.

(** X29.  What the regional filter returns can always be drawn, as long as
    folium accepts every pair of numbers that are not NaN: on a record set
    the filter returned, [add_usina_heatmap] does not raise. *)
Theorem add_usina_heatmap_after_filter (df out : DataFrame) (m : Map) :
  (∀ lat lon, is_nan lat = false → is_nan lon = false →
     ∃ p, validate_location (VNum lat) (VNum lon) = Return p) →
  filter_usinas_by_region df = Return out →
  ∃ m', add_usina_heatmap validate_location out m = (Return tt, m').
Proof.
  intros Hv H. destruct (filter_usinas_by_region_inv _ _ H) as [[C1 _] [C2 _]].
  assert (Hout : columns out = columns df ∧ rows out = List.filter keep (rows df)).
  { rewrite filter_usinas_by_region_Return in H; [by injection H as <-|..];
      by eapply filter_usinas_by_region_inv. }
  destruct Hout as [Hcols Hrows].
  unfold add_usina_heatmap, add_heatmap.
  destruct (empty out); cbn [negb]; [by eexists|].
  unfold bind, lift, add_to, getitem_pair, has_column. rewrite Hcols.
  fold (has_column df "latitude"). fold (has_column df "longitude").
  rewrite C1, C2. cbn [bind_o].
  destruct (mapM_total (λ p, validate_location p.1 p.2)
              ((λ r, (cell r "latitude", cell r "longitude")) <$> rows out))
    as (points & ->); [|by eexists].
  apply Forall_fmap. rewrite Hrows. apply Forall_forall.
  intros r [_ K]%list_elem_of_In%filter_In. cbn.
  pose proof (keep_has_coordinates r K) as Hc.
  apply keep_retained in K. unfold retained in K.
  unfold has_coordinates, notna in Hc.
  destruct (cell r "latitude") as [lat| |]; try done.
  destruct (cell r "longitude") as [lon| |]; try done.
  cbn [isna] in Hc. apply andb_true_iff in Hc as [N1 N2].
  apply Hv; by apply negb_true_iff.
Qed.

End MapLayerProperties.

(** * Further instances *)

(** X1 on the sample plants. *)
Lemma filter_usinas_by_region_within_bounds_sample :
  filter_usinas_by_region sample_plants = Return sample_plants_kept ∧
  rows sample_plants_kept `sublist_of` rows sample_plants.
Proof.
  assert (H : filter_usinas_by_region sample_plants = Return sample_plants_kept)
    by (vm_compute; reflexivity).
  split; [exact H|].
  exact (proj1 (proj2 (filter_usinas_by_region_within_bounds _ _ H))).
Defined.

(** X2 on the sample plants, two rows and two rows. *)
Lemma filter_usinas_by_region_app_sample :
  filter_usinas_by_region sample_plants
    = Return (mkDataFrame ["Franquia"; "latitude"; "longitude"]
                ([located "a" (VNum 5.0) (VNum (-60.0))]
                 ++ [located "c" (VNum (-2.0)) (VNum (-65.0))])).
Proof.
  apply (proj1 (filter_usinas_by_region_app ["Franquia"; "latitude"; "longitude"]
                  [located "a" (VNum 5.0) (VNum (-60.0));
                   located "b" (VNum 5.0001) (VNum (-60.0))]
                  [located "c" (VNum (-2.0)) (VNum (-65.0));
                   located "d" (VNum 10.0) (VNum (-65.0))])
          (mkDataFrame ["Franquia"; "latitude"; "longitude"]
             [located "a" (VNum 5.0) (VNum (-60.0))])
          (mkDataFrame ["Franquia"; "latitude"; "longitude"]
             [located "c" (VNum (-2.0)) (VNum (-65.0))]));
    vm_compute; reflexivity.
Defined.

(** X3 on the empty record set, on latitudes alone, and on a latitude that
    is text. *)
Lemma filter_usinas_by_region_raises_sample :
  filter_usinas_by_region DataFrame_empty = Raise (Exn KeyError "latitude") ∧
  filter_usinas_by_region sample_latitudes_only = Raise (Exn KeyError "longitude") ∧
  ∃ msg, filter_usinas_by_region sample_plants_text = Raise (Exn TypeError msg).
Proof.
  split; [|split].
  - apply (proj1 (filter_usinas_by_region_raises DataFrame_empty)). reflexivity.
  - apply (proj1 (proj2 (filter_usinas_by_region_raises sample_latitudes_only))).
    + split; [reflexivity|]. by repeat constructor.
    + reflexivity.
  - apply (proj2 (proj2 (filter_usinas_by_region_raises sample_plants_text))).
    + reflexivity.
    + exists (located "e" (VStr "n/a") (VNum (-60.0))), "n/a".
      split; [|reflexivity]. cbn [rows sample_plants_text].
      apply elem_of_cons. right. apply elem_of_cons. by left.
Defined.

(** X4 on the sample plants. *)
Lemma filter_usinas_by_region_dropna_sample :
  dropna sample_plants_kept ["latitude"; "longitude"] = Return sample_plants_kept.
Proof.
  apply (proj1 (filter_usinas_by_region_dropna sample_plants sample_plants_kept
                  ltac:(vm_compute; reflexivity))).
Defined.

(** X5 on the sample records. *)
Lemma process_coordinates_idempotent_sample :
  process_coordinates sample_float_of_string sample_normalized
    = (Return sample_normalized, sample_normalized).
Proof.
  apply (process_coordinates_idempotent sample_float_of_string
           sample_records sample_normalized sample_records_after).
  vm_compute. reflexivity.
Defined.

(** X6 on a record set with raw latitudes only. *)
Lemma process_coordinates_half_done_sample :
  (process_coordinates sample_float_of_string sample_lat_str_only).1
    = Raise (Exn KeyError "lng_str") ∧
  columns (process_coordinates sample_float_of_string sample_lat_str_only).2
    = ["lat_str"; "latitude"].
Proof.
  rewrite (process_coordinates_half_done sample_float_of_string sample_lat_str_only);
    [split; reflexivity|split; reflexivity|reflexivity].
Defined.

(** X8 on an endpoint that answers at once. *)
Lemma fetch_aneel_first_answer_sample :
  (fetch_aneel world_corrupt).1 = Return sample_records ∧
  attempts (fetch_aneel world_corrupt).2 = 1.
Proof.
  rewrite (fetch_aneel_first_answer world_corrupt 200 sample_records eq_refl eq_refl).
  split; reflexivity.
Defined.

(** X9 on an endpoint that answers 503. *)
Lemma fetch_aneel_http_error_soft_sample :
  (fetch_aneel world_503).1 = Return DataFrame_empty ∧
  attempts (fetch_aneel world_503).2 = 1.
Proof.
  destruct (fetch_aneel_http_error_soft world_503 503 (Payload sample_records)
              eq_refl (or_introl eq_refl)) as (msg & ->).
  split; reflexivity.
Defined.

(** X11 on an endpoint that keeps answering with a JSON object whose
    [result] is null. *)
Lemma fetch_aneel_raises_only_RetryError_sample :
  (fetch_aneel world_no_result).1 = Raise (Exn RetryError "RetryError") ∧
  attempts (fetch_aneel world_no_result).2 = 3.
Proof.
  destruct (fetch_aneel_raises_only_RetryError world_no_result) as [T1 T2].
  assert (H : (fetch_aneel world_no_result).1 = Raise (Exn RetryError "RetryError")).
  { apply T2. intros i _. exists 200, ResultNotAnObject.
    split; [reflexivity|]. split; [reflexivity|]. right. left. reflexivity. }
  split; [exact H|].
  destruct (T1 (Exn RetryError "RetryError") (fetch_aneel world_no_result).2)
    as (_ & A & _); [|exact A].
  vm_compute. reflexivity.
Defined.


(** X13 on a world whose snapshot is unreadable and whose endpoint answers. *)
Lemma load_aneel_data_second_call_sample :
  ∃ w1 w3,
    load_aneel_data sample_float_of_string world_corrupt = (Return sample_normalized, w1) ∧
    load_aneel_data sample_float_of_string w1 = (Return sample_normalized, w3) ∧
    attempts w3 = attempts w1 ∧ files w3 = files w1.
Proof.
  destruct (load_aneel_data_second_call sample_float_of_string world_corrupt
              sample_records (fetch_aneel (cache_probe world_corrupt)).2
              sample_normalized sample_records_after)
    as (w1 & w3 & E1 & E2 & _ & A & _ & F).
  - exact I.
  - vm_compute. reflexivity.
  - reflexivity.
  - vm_compute. reflexivity.
  - apply arrow_error_None. vm_compute. reflexivity.
  - by exists w1, w3.
Defined.


(** X15 on an endpoint whose records lack the raw coordinate fields. *)
Lemma load_aneel_data_bad_records_raise_sample :
  (load_aneel_data sample_float_of_string world_wrong_fields).1
    = Raise (Exn KeyError "lat_str") ∧
  files (load_aneel_data sample_float_of_string world_wrong_fields).2
    = files world_wrong_fields.
Proof.
  destruct (load_aneel_data_bad_records_raise sample_float_of_string world_wrong_fields
              sample_plants (fetch_aneel (cache_probe world_wrong_fields)).2)
    as (E & F & _).
  - exact I.
  - vm_compute. reflexivity.
  - reflexivity.
  - reflexivity.
  - rewrite E. split; [reflexivity|exact F].
Defined.

(** X16 on the franchise snapshot of a world whose registry snapshot is
    rebuilt. *)
Lemma load_aneel_data_writes_only_its_snapshot_sample :
  files (load_aneel_data sample_float_of_string world_corrupt).2 !! Config.FRANCHISE_DATA
    = files world_corrupt !! Config.FRANCHISE_DATA.
Proof.
  apply (load_aneel_data_writes_only_its_snapshot sample_float_of_string world_corrupt).
  discriminate.
Defined.

(** X18 on a world whose franchise snapshot is unreadable. *)
Lemma load_franchise_data_rebuilds_snapshot_sample :
  ∃ out w',
    load_franchise_data world_franchise_stale = (Return out, w') ∧
    length (rows out) = 4 ∧
    files w' !! Config.FRANCHISE_DATA = Some (Parquet out).
Proof.
  destruct (load_franchise_data_rebuilds_snapshot world_franchise_stale Unreadable
              sample_franchises)
    as (out & w' & msg & E & -> & F & _).
  - reflexivity.
  - discriminate.
  - reflexivity.
  - apply arrow_error_None. vm_compute. reflexivity.
  - reflexivity.
  - reflexivity.
  - eexists _, w'. split; [exact E|]. split; [reflexivity|exact F].
Defined.

(** X19 on a franchise file that is no CSV. *)
Lemma load_franchise_data_bad_source_sample :
  ∃ w', load_franchise_data world_franchise_garbled = (Return DataFrame_empty, w') ∧
        files w' = files world_franchise_garbled.
Proof.
  destruct (load_franchise_data_bad_source world_franchise_garbled Unreadable)
    as (msg & w' & E & _ & F).
  - reflexivity.
  - reflexivity.
  - discriminate.
  - by exists w'.
Defined.

(** X21 on the sample plants. *)
Lemma load_usina_data_returns_rows_in_boxes_sample :
  (load_usina_data world_plants).1 = Return sample_plants_kept.
Proof.
  rewrite (load_usina_data_returns_rows_in_boxes world_plants sample_plants).
  - vm_compute. reflexivity.
  - reflexivity.
  - split; [reflexivity|]. repeat constructor.
  - split; [reflexivity|]. repeat constructor.
Defined.

(** X22 on a plant file without a latitude column. *)
Lemma load_usina_data_present_but_unusable_sample :
  ∃ w', load_usina_data world_plants_wrong_fields = (Return DataFrame_empty, w') ∧
        length (errors w') = 2.
Proof.
  destruct (load_usina_data_present_but_unusable world_plants_wrong_fields
              (Csv sample_records))
    as (msg & w' & E & Er).
  - reflexivity.
  - by intros src [= <-].
  - exists w'. split; [exact E|]. rewrite Er. reflexivity.
Defined.

(** X23 on a world without the company snapshot. *)
Lemma load_company_data_behaviour_sample :
  load_company_data world_down = (Return DataFrame_empty, world_down).
Proof.
  apply (proj1 (proj2 (proj2 (load_company_data_behaviour world_down)))).
  reflexivity.
Defined.

(** X24 on a world that holds the registry snapshot and both source files. *)
Lemma init_data_loads_each_alone_sample :
  ∃ d, (init_data sample_float_of_string world_complete).1 = Return d ∧
       d !! "aneel" = Some sample_normalized ∧
       d !! "usinas" = Some sample_plants_kept.
Proof.
  destruct (init_data_loads_each_alone sample_float_of_string world_complete
              (<["usinas" := sample_plants_kept]>
                 (<["franchise" := mkDataFrame (columns sample_franchises)
                                     (List.filter has_coordinates (rows sample_franchises))]>
                    (<["aneel" := sample_normalized]> ∅)))
              (init_data sample_float_of_string world_complete).2)
    as (a & f & u & _ & _ & _ & Da & _ & Du & _).
  - vm_compute. reflexivity.
  - eexists. split; [vm_compute; reflexivity|]. split; reflexivity.
Defined.

(** X25 on an endpoint that keeps answering with a JSON array. *)
Lemma init_data_raises_with_registry_loader_sample :
  (init_data sample_float_of_string world_malformed).1
    = Raise (Exn RetryError "RetryError").
Proof.
  rewrite (proj2 (init_data_raises_with_registry_loader sample_float_of_string
                    world_malformed (Exn RetryError "RetryError")
                    (load_aneel_data sample_float_of_string world_malformed).2));
    [reflexivity|vm_compute; reflexivity].
Defined.

(** X28 on the raw registry records, which have no [latitude] column. *)
Lemma map_layers_need_latitude_sample :
  (∃ msg, add_heatmap sample_validate_location sample_records "ANEEL" 8 None
            create_base_map
          = (Raise (Exn KeyError msg), create_base_map)) ∧
  add_franchise_markers sample_validate_location sample_records create_base_map
    = (Raise (Exn KeyError "latitude"), create_base_map).
Proof.
  apply (map_layers_need_latitude sample_validate_location sample_records
           create_base_map "ANEEL" 8 None); reflexivity.
Defined.

(** X29 on the sample plants. *)
Lemma add_usina_heatmap_after_filter_sample :
  ∃ m', add_usina_heatmap sample_validate_location sample_plants_kept create_base_map
          = (Return tt, m').
Proof.
  apply (add_usina_heatmap_after_filter sample_validate_location
           sample_plants sample_plants_kept create_base_map).
  - intros lat lon Hlat Hlon. exists (lat, lon). cbn. by rewrite Hlat, Hlon.
  - vm_compute. reflexivity.
Defined.
